(** * zapmoda backend: the status service of [backend/app.py]

    The module under verification is twelve lines of Python:

<<
    app = Flask(__name__)
    CORS(app)

    @app.route('/status')
    def status():
        return jsonify({'message': 'Backend rodando com sucesso!'})

    if __name__ == '__main__':
        app.run(host='0.0.0.0', port=10000)
>>

    Everything it does, it does through Flask, Werkzeug and Flask-CORS.
    The development therefore has two layers.  Sections [Json], [Http],
    [Werkzeug], [Flask] and [FlaskCors] hold an executable model of the
    library calls the module makes (current releases: Flask 3.x,
    Werkzeug 3.x, Flask-CORS 4.x and later, default settings).  Section
    [AppPy] is the translation of [app.py] itself, statement by
    statement, in a state-and-exception monad over a store of
    application objects.

    Strings are sequences of code points below 256.  A request is the
    object a view sees as [flask.request].  A response holds the
    headers its constructor and the hooks give it; what the WSGI
    server adds when it sends (Date, Server) is not part of it.  The
    iteration order of a Python set depends on the process (its hash
    seed): it is the parameter [set_order] of Section [Process]. *)

From Stdlib Require Import String Ascii List ZArith Bool Lia DecimalString.
From Stdlib Require Import Permutation.
From stdpp Require Import base strings gmap list.

Set Warnings "-register-all".

Open Scope string_scope.
Open Scope Z_scope.

(** ** Python exceptions and results *)

(** The exceptions that occur: the three built-in ones the libraries
    raise on misuse, and Werkzeug's HTTP exceptions, which Flask turns
    into responses. *)
Inductive PyExc : Type :=
| TypeError (msg : string)
| ValueError (msg : string)
| AssertionError (msg : string)
| KeyError (key : string)
| NotFound
| WebsocketMismatch
| MethodNotAllowed (valid_methods : list string)
| RequestRedirect (new_url : string)
| HTTPException (code : Z).

Inductive Result (A : Type) : Type :=
| Ok (a : A)
| Raise (e : PyExc).

Arguments Ok {A} a.
Arguments Raise {A} e.

Definition rbind {A B} (r : Result A) (k : A -> Result B) : Result B :=
  match r with
  | Ok a => k a
  | Raise e => Raise e
  end.

(** ** Characters and strings *)

Definition dquote : ascii := "034"%char.
Definition backslash : ascii := "092"%char.
Definition newline : ascii := "010"%char.

Definition chr (c : ascii) : string := String c EmptyString.

Definition nl : string := chr newline.

Definition hex_digit (n : nat) : ascii :=
  match n with
  | 0 => "0" | 1 => "1" | 2 => "2" | 3 => "3" | 4 => "4"
  | 5 => "5" | 6 => "6" | 7 => "7" | 8 => "8" | 9 => "9"
  | 10 => "a" | 11 => "b" | 12 => "c" | 13 => "d" | 14 => "e"
  | _ => "f"
  end%nat%char.

Definition ascii_lower (c : ascii) : ascii :=
  let n := nat_of_ascii c in
  if (65 <=? n)%nat && (n <=? 90)%nat then ascii_of_nat (n + 32) else c.

Definition ascii_upper (c : ascii) : ascii :=
  let n := nat_of_ascii c in
  if (97 <=? n)%nat && (n <=? 122)%nat then ascii_of_nat (n - 32) else c.

Fixpoint str_map (f : ascii -> ascii) (s : string) : string :=
  match s with
  | EmptyString => EmptyString
  | String c r => String (f c) (str_map f r)
  end.

Definition lower : string -> string := str_map ascii_lower.
Definition upper : string -> string := str_map ascii_upper.

Fixpoint str_forall (p : ascii -> bool) (s : string) : bool :=
  match s with
  | EmptyString => true
  | String c r => p c && str_forall p r
  end.

Fixpoint join (sep : string) (l : list string) : string :=
  match l with
  | [] => ""
  | [x] => x
  | x :: r => x ++ sep ++ join sep r
  end.

(** [s.split(sep)] for a one-character separator: never empty, and
    [join (chr sep) (split sep s) = s]. *)
Fixpoint split (sep : ascii) (s : string) : list string :=
  match s with
  | EmptyString => [""]
  | String c r =>
      if Ascii.eqb c sep then "" :: split sep r
      else match split sep r with
           | [] => [chr c]
           | x :: xs => String c x :: xs
           end
  end.

Fixpoint spaces (n : nat) : string :=
  match n with
  | O => ""
  | S k => String " " (spaces k)
  end.

Definition Z_to_string (z : Z) : string := NilEmpty.string_of_int (Z.to_int z).

Definition nat_to_string (n : nat) : string :=
  NilEmpty.string_of_uint (Nat.to_uint n).

(** [len(s.encode("utf-8"))]: one byte for a code point below 128, two
    for the others below 256. *)
Fixpoint utf8_length (s : string) : nat :=
  match s with
  | EmptyString => 0%nat
  | String c r =>
      ((if (nat_of_ascii c <? 128)%nat then 1 else 2) + utf8_length r)%nat
  end.

(** [str.isspace] on one character, below 256. *)
Definition is_space (c : ascii) : bool :=
  let n := nat_of_ascii c in
  ((9 <=? n)%nat && (n <=? 13)%nat)
  || ((28 <=? n)%nat && (n <=? 32)%nat)
  || (n =? 133)%nat || (n =? 160)%nat.

Fixpoint lstrip_space (s : string) : string :=
  match s with
  | String c r => if is_space c then lstrip_space r else s
  | EmptyString => EmptyString
  end.

Fixpoint str_rev (s : string) : string :=
  match s with
  | EmptyString => EmptyString
  | String c r => str_rev r ++ String c EmptyString
  end.

(** [s.strip()]. *)
Definition strip (s : string) : string :=
  str_rev (lstrip_space (str_rev (lstrip_space s))).

(** ** JSON, as [flask.json] writes it and as a client reads it *)

Section Json.

(** The Python values a view may hand to [jsonify]. [PyObject] stands
    for any object the JSON provider has no encoding for. *)
Inductive pyvalue : Type :=
| PyNone
| PyBool (b : bool)
| PyInt (z : Z)
| PyStr (s : string)
| PyList (l : list pyvalue)
| PyDict (d : list (string * pyvalue))
| PyObject (type_name : string).

(** [json.encoder.py_encode_basestring_ascii]: quote, backslash and
    the short escapes, every other character outside [' '..'~'] as
    a four-digit lower-case escape. *)
Definition escape_char (c : ascii) : string :=
  let n := nat_of_ascii c in
  if Ascii.eqb c dquote then String backslash (chr dquote)
  else if Ascii.eqb c backslash then String backslash (chr backslash)
  else if Ascii.eqb c newline then String backslash "n"
  else if (n =? 13)%nat then String backslash "r"
  else if (n =? 9)%nat then String backslash "t"
  else if (n =? 8)%nat then String backslash "b"
  else if (n =? 12)%nat then String backslash "f"
  else if (32 <=? n)%nat && (n <=? 126)%nat then chr c
  else String backslash
         ("u00" ++ String (hex_digit (n / 16)) (chr (hex_digit (n mod 16)))).

Fixpoint escape_string (s : string) : string :=
  match s with
  | EmptyString => EmptyString
  | String c r => escape_char c ++ escape_string r
  end.

Definition encode_basestring_ascii (s : string) : string :=
  String dquote (escape_string s ++ chr dquote).

(** [sorted(items)] on the rendered members, by key. *)
Fixpoint insert_by_key (kv : string * string) (l : list (string * string))
  : list (string * string) :=
  match l with
  | [] => [kv]
  | x :: r => if String.leb (fst kv) (fst x) then kv :: x :: r
              else x :: insert_by_key kv r
  end.

Definition sort_by_key (l : list (string * string)) : list (string * string) :=
  fold_right insert_by_key [] l.

(** Layout of a container: [indent=None, separators=(",", ":")] when
    compact, [indent=2] (and the default [": "]) otherwise. *)
Definition brk (indent : option nat) (level : nat) : string :=
  match indent with
  | None => ""
  | Some n => nl ++ spaces (n * level)
  end.

Definition key_sep (indent : option nat) : string :=
  match indent with
  | None => ":"
  | Some _ => ": "
  end.

Definition container (indent : option nat) (level : nat)
           (open close : string) (items : list string) : string :=
  match items with
  | [] => open ++ close
  | _ => open ++ brk indent (S level)
              ++ join ("," ++ brk indent (S level)) items
              ++ brk indent level ++ close
  end.

(** [json.dumps(v, sort_keys=True, ensure_ascii=True, ...)]; raises
    [TypeError] on an object without an encoding. *)
Fixpoint dumps_at (indent : option nat) (level : nat) (v : pyvalue)
  : Result string :=
  match v with
  | PyNone => Ok "null"
  | PyBool b => Ok (if b then "true" else "false")
  | PyInt z => Ok (Z_to_string z)
  | PyStr s => Ok (encode_basestring_ascii s)
  | PyList l =>
      let fix each (l : list pyvalue) : Result (list string) :=
        match l with
        | [] => Ok []
        | x :: r =>
            rbind (dumps_at indent (S level) x) (fun sx =>
            rbind (each r) (fun sr => Ok (sx :: sr)))
        end in
      rbind (each l) (fun items => Ok (container indent level "[" "]" items))
  | PyDict d =>
      let fix each (d : list (string * pyvalue))
        : Result (list (string * string)) :=
        match d with
        | [] => Ok []
        | (k, x) :: r =>
            rbind (dumps_at indent (S level) x) (fun sx =>
            rbind (each r) (fun sr => Ok ((k, sx) :: sr)))
        end in
      rbind (each d) (fun members =>
        Ok (container indent level "{" "}"
              (map (fun kv => encode_basestring_ascii (fst kv)
                                ++ key_sep indent ++ snd kv)
                   (sort_by_key members))))
  | PyObject t =>
      Raise (TypeError ("Object of type " ++ t ++ " is not JSON serializable"))
  end.

Definition dumps (indent : option nat) (v : pyvalue) : Result string :=
  dumps_at indent 0 v.

(** *** Reading a body back

    The decoder of a client ([json.loads]), on the same fragment of
    values (no fractions or exponents, code points below 256).  It is
    the yardstick for "the body is this JSON document", whatever the
    layout the writer chose. *)

Definition is_ws (c : ascii) : bool :=
  let n := nat_of_ascii c in
  (n =? 32)%nat || (n =? 9)%nat || (n =? 10)%nat || (n =? 13)%nat.

Fixpoint skip_ws (s : string) : string :=
  match s with
  | String c r => if is_ws c then skip_ws r else s
  | EmptyString => EmptyString
  end.

Definition hex_value (c : ascii) : option nat :=
  let n := nat_of_ascii c in
  if (48 <=? n)%nat && (n <=? 57)%nat then Some (n - 48)%nat
  else if (97 <=? n)%nat && (n <=? 102)%nat then Some (n - 87)%nat
  else if (65 <=? n)%nat && (n <=? 70)%nat then Some (n - 55)%nat
  else None.

(** The characters after an opening quote, up to the closing one. *)
Fixpoint scan_string (s : string) : option (string * string) :=
  match s with
  | EmptyString => None
  | String c r =>
      if Ascii.eqb c dquote then Some ("", r)
      else if Ascii.eqb c backslash then
        match r with
        | String "u" (String a (String b (String h (String l r')))) =>
            match hex_value a, hex_value b, hex_value h, hex_value l with
            | Some 0%nat, Some 0%nat, Some x, Some y =>
                match scan_string r' with
                | Some (t, rest) =>
                    Some (String (ascii_of_nat (16 * x + y)) t, rest)
                | None => None
                end
            | _, _, _, _ => None
            end
        | String e r' =>
            let plain (d : ascii) :=
              match scan_string r' with
              | Some (t, rest) => Some (String d t, rest)
              | None => None
              end in
            if Ascii.eqb e dquote then plain dquote
            else if Ascii.eqb e backslash then plain backslash
            else if Ascii.eqb e "/" then plain "/"%char
            else if Ascii.eqb e "n" then plain newline
            else if Ascii.eqb e "r" then plain (ascii_of_nat 13)
            else if Ascii.eqb e "t" then plain (ascii_of_nat 9)
            else if Ascii.eqb e "b" then plain (ascii_of_nat 8)
            else if Ascii.eqb e "f" then plain (ascii_of_nat 12)
            else None
        | EmptyString => None
        end
      else if (nat_of_ascii c <? 32)%nat then None
      else match scan_string r with
           | Some (t, rest) => Some (String c t, rest)
           | None => None
           end
  end.

Definition is_digit (c : ascii) : bool :=
  let n := nat_of_ascii c in (48 <=? n)%nat && (n <=? 57)%nat.

Fixpoint scan_digits (acc : Z) (s : string) : Z * string :=
  match s with
  | String c r =>
      if is_digit c
      then scan_digits (10 * acc + Z.of_nat (nat_of_ascii c - 48)) r
      else (acc, s)
  | EmptyString => (acc, s)
  end.

Definition starts_digit (s : string) : bool :=
  match s with
  | String c _ => is_digit c
  | EmptyString => false
  end.

(** A zero with a digit after it: no JSON number starts so. *)
Definition leading_zero (s : string) : bool :=
  match s with
  | String "0" r => starts_digit r
  | _ => false
  end.

(** One value, then whatever follows it.  [fuel] bounds the nesting
    and the number of members; the length of the text always
    suffices. *)
Fixpoint scan_value (fuel : nat) (s : string) : option (pyvalue * string) :=
  match fuel with
  | O => None
  | S fuel' =>
      match skip_ws s with
      | String "n" (String "u" (String "l" (String "l" r))) => Some (PyNone, r)
      | String "t" (String "r" (String "u" (String "e" r))) =>
          Some (PyBool true, r)
      | String "f" (String "a" (String "l" (String "s" (String "e" r)))) =>
          Some (PyBool false, r)
      | String "[" r =>
          match skip_ws r with
          | String "]" r' => Some (PyList [], r')
          | _ => scan_elements fuel' r []
          end
      | String "{" r =>
          match skip_ws r with
          | String "}" r' => Some (PyDict [], r')
          | _ => scan_members fuel' r []
          end
      | String "-" r =>
          if starts_digit r && negb (leading_zero r)
          then let '(z, r') := scan_digits 0 r in Some (PyInt (- z), r')
          else None
      | String c r =>
          if Ascii.eqb c dquote then
            match scan_string r with
            | Some (t, r') => Some (PyStr t, r')
            | None => None
            end
          else if is_digit c && negb (leading_zero (String c r))
          then let '(z, r') := scan_digits 0 (String c r) in Some (PyInt z, r')
          else None
      | EmptyString => None
      end
  end
with scan_elements (fuel : nat) (s : string) (acc : list pyvalue)
  : option (pyvalue * string) :=
  match fuel with
  | O => None
  | S fuel' =>
      match scan_value fuel' s with
      | Some (v, r) =>
          match skip_ws r with
          | String "," r' => scan_elements fuel' r' (acc ++ [v])
          | String "]" r' => Some (PyList (acc ++ [v]), r')
          | _ => None
          end
      | None => None
      end
  end
with scan_members (fuel : nat) (s : string) (acc : list (string * pyvalue))
  : option (pyvalue * string) :=
  match fuel with
  | O => None
  | S fuel' =>
      match skip_ws s with
      | String c r =>
          if Ascii.eqb c dquote then
            match scan_string r with
            | Some (k, r1) =>
                match skip_ws r1 with
                | String ":" r2 =>
                    match scan_value fuel' r2 with
                    | Some (v, r3) =>
                        match skip_ws r3 with
                        | String "," r4 =>
                            scan_members fuel' r4 (acc ++ [(k, v)])
                        | String "}" r4 => Some (PyDict (acc ++ [(k, v)]), r4)
                        | _ => None
                        end
                    | None => None
                    end
                | _ => None
                end
            | None => None
            end
          else None
      | EmptyString => None
      end
  end.

(** [json.loads]: one value and nothing but white space after it. *)
Definition loads (s : string) : option pyvalue :=
  match scan_value (S (String.length s)) s with
  | Some (v, r) =>
      match skip_ws r with
      | EmptyString => Some v
      | _ => None
      end
  | None => None
  end.

End Json.

(** ** Requests and responses *)

Section Http.

(** What a view can read of the request in flight. [method] is
    [request.method], already in upper case; [path] is [request.path],
    decoded, with its single leading slash. *)
Record Request : Type := mkRequest {
  method : string;
  path : string;
  query_string : string;
  headers : list (string * string);
  data : string
}.

(** A body is either the text a view wrote or one of Werkzeug's stock
    HTML pages.  The pages are kept symbolic, and with their text
    their length header. *)
Inductive Body : Type :=
| Data (s : string)
| ErrorPage (code : Z)
| RedirectPage (location : string).

Record Response : Type := mkResponse {
  status_code : Z;
  resp_headers : list (string * string);
  body : Body
}.

(** [Headers.get]: first entry under the name, names compared without
    regard to case. *)
Fixpoint header_get (name : string) (hs : list (string * string))
  : option string :=
  match hs with
  | [] => None
  | (k, v) :: r =>
      if String.eqb (lower k) (lower name) then Some v else header_get name r
  end.

(** [Headers.add]: append, keeping what is there. *)
Definition header_add (name value : string) (hs : list (string * string))
  : list (string * string) :=
  hs ++ [(name, value)].

(** The value of a header in the WSGI environment: the values of its
    lines, joined by commas; empty when there is none. *)
Fixpoint header_values (name : string) (hs : list (string * string))
  : list string :=
  match hs with
  | [] => []
  | (k, v) :: r =>
      if String.eqb (lower k) (lower name) then v :: header_values name r
      else header_values name r
  end.

Definition environ_header (name : string) (hs : list (string * string))
  : string :=
  join "," (header_values name hs).

(** [Map.bind_to_environ] takes a request for a WebSocket one when
    [Connection] lists [upgrade] and [Upgrade] is [websocket], in any
    case of letters. *)
Definition is_websocket (req : Request) : bool :=
  existsb (fun v => String.eqb (strip v) "upgrade")
          (split "," (lower (environ_header "Connection" (headers req))))
  && String.eqb (lower (environ_header "Upgrade" (headers req))) "websocket".

(** [Response(text, mimetype=...)]: status 200; [get_content_type]
    appends the charset to [text/*] types only, and [set_data] records
    the length of the encoded text. *)
Definition content_type_of (mimetype : string) : string :=
  if String.prefix "text/" mimetype then mimetype ++ "; charset=utf-8"
  else mimetype.

Definition make_text_response (text mimetype : string) : Response :=
  {| status_code := 200;
     resp_headers := [("Content-Type", content_type_of mimetype);
                      ("Content-Length", nat_to_string (utf8_length text))];
     body := Data text |}.

(** [HTTPException.get_response]: the code, an HTML page, and the
    headers the exception brings ([Allow], [Location]). *)
Definition http_error_response (code : Z) (extra : list (string * string))
  : Response :=
  {| status_code := code;
     resp_headers := ("Content-Type", "text/html; charset=utf-8") :: extra;
     body := ErrorPage code |}.

Definition exception_response (e : PyExc) : Response :=
  match e with
  | NotFound => http_error_response 404 []
  | WebsocketMismatch => http_error_response 400 []
  | MethodNotAllowed valid =>
      http_error_response 405 [("Allow", join ", " valid)]
  | RequestRedirect url =>
      {| status_code := 308;
         resp_headers := [("Content-Type", "text/html; charset=utf-8");
                          ("Location", url)];
         body := RedirectPage url |}
  | HTTPException code => http_error_response code []
  | TypeError _ | ValueError _ | AssertionError _ | KeyError _ =>
      http_error_response 500 []
  end.

End Http.

(** ** The process

    Everything below runs in one Python process.  Where the libraries
    turn a set of method names into a list, the order is that of the
    process: [set_order] gives it, for a set held here as the list of
    its members in the order they were added. *)

Section Process.

Variable set_order : list string -> list string.

(** ** Werkzeug's URL map *)

Section Werkzeug.

(** A rule is its text, cut at the slashes.  Two kinds of part occur
    in this program: literal text, and a closing [<path:name>]
    converter, which takes the whole rest of the path. *)
Inductive RulePart : Type :=
| Static (text : string)
| PathConverter (name : string).

Record Rule : Type := mkRule {
  rule : string;
  parts : list RulePart;
  methods : list string;
  endpoint : string;
  strict_slashes : bool;
  merge_slashes : bool;
  websocket : bool;
  provide_automatic_options : bool
}.

Definition add_method (m : string) (ms : list string) : list string :=
  if existsb (String.eqb m) ms then ms else ms ++ [m].

Definition has_method (m : string) (ms : list string) : bool :=
  existsb (String.eqb m) ms.

Definition str_contains (c : ascii) (s : string) : bool :=
  negb (str_forall (fun x => negb (Ascii.eqb x c)) s).

Definition ends_with (c : ascii) (s : string) : bool :=
  match get (String.length s - 1) s with
  | Some x => Ascii.eqb x c
  | None => false
  end.

(** One part of a rule.  Any converter but [path] raises: the model
    has no reading for it, and says so rather than guess. *)
Definition parse_part (seg : string) : Result RulePart :=
  if String.prefix "<path:" seg && ends_with ">" seg then
    Ok (PathConverter
          (substring 6 (String.length seg - 7) seg))
  else if str_contains "<" seg || str_contains ">" seg then
    Raise (ValueError ("unsupported converter in " ++ seg))
  else Ok (Static seg).

Fixpoint parse_parts (segs : list string) : Result (list RulePart) :=
  match segs with
  | [] => Ok []
  | seg :: r =>
      rbind (parse_part seg) (fun p =>
      rbind (parse_parts r) (fun ps =>
      match p, ps with
      | PathConverter _, _ :: _ =>
          Raise (ValueError "path converter before the end of a rule")
      | _, _ => Ok (p :: ps)
      end))
  end.

Definition begins_with (c : ascii) (s : string) : bool :=
  match s with
  | String x _ => Ascii.eqb x c
  | EmptyString => false
  end.

(** Merging slashes: every run of two slashes or more becomes one
    slash.  A slash that another slash follows is dropped. *)
Fixpoint merge_slashes_in (s : string) : string :=
  match s with
  | String c r =>
      if Ascii.eqb c "/" && begins_with "/" r then merge_slashes_in r
      else String c (merge_slashes_in r)
  | EmptyString => EmptyString
  end.

(** [Rule(string, methods=..., endpoint=...)] bound to a map with the
    default [strict_slashes=True, merge_slashes=True]: the leading
    slash is required, method names are upper-cased, HEAD joins GET,
    and the rule is an HTTP rule, not a WebSocket one.  The rules of
    this program have no repeated slash for the merge to touch. *)
Definition new_rule (text : string) (ms : list string) (ep : string)
           (auto_options : bool) : Result Rule :=
  if negb (String.prefix "/" text) then
    Raise (ValueError "urls must start with a leading slash")
  else
    rbind (parse_parts (split "/" (merge_slashes_in text))) (fun ps =>
    let ms := fold_left (fun acc m => add_method (upper m) acc) ms [] in
    let ms := if has_method "GET" ms then add_method "HEAD" ms else ms in
    Ok {| rule := text; parts := ps; methods := ms; endpoint := ep;
          strict_slashes := true; merge_slashes := true;
          websocket := false;
          provide_automatic_options := auto_options |}).

(** The [path] converter's pattern, [[^/].*?] up to the end of the
    text: something that does not start with a slash and, the dot not
    matching a line feed, has none after its first character. *)
Definition path_converter_accepts (t : string) : bool :=
  match t with
  | String c r =>
      negb (Ascii.eqb c "/") && str_forall (fun x => negb (Ascii.eqb x newline)) r
  | EmptyString => false
  end.

(** How the parts of one rule meet the parts of a path. *)
Inductive PartsMatch : Type :=
| Hit (args : list (string * string))
| SlashMissing  (* the rule goes on with a closing slash the path lacks *)
| SlashExtra (args : list (string * string))
                (* the path goes on with a closing slash the rule lacks *)
| Miss.

Fixpoint match_parts (ps : list RulePart) (segs : list string) : PartsMatch :=
  match ps, segs with
  | [], [] => Hit []
  | [Static ""], [] => SlashMissing
  | [], [""] => SlashExtra []
  | Static s :: ps', seg :: segs' =>
      if String.eqb s seg then match_parts ps' segs' else Miss
  | PathConverter n :: _, _ :: _ =>
      let target := join "/" segs in
      if path_converter_accepts target then Hit [(n, target)] else Miss
  | _, _ => Miss
  end.

(** What a search gathers on its way: the methods of the rules that
    met the path under another method ([have_match_for]), and whether
    a rule was passed over for being of the other kind, HTTP or
    WebSocket ([websocket_mismatch]). *)
Record Gathered : Type := mkGathered {
  have_match_for : list string;
  websocket_mismatch : bool
}.

Definition nothing_gathered : Gathered :=
  {| have_match_for := []; websocket_mismatch := false |}.

Definition with_methods (ms : list string) (g : Gathered) : Gathered :=
  {| have_match_for := fold_left (fun acc x => add_method x acc) ms
                                 (have_match_for g);
     websocket_mismatch := websocket_mismatch g |}.

Definition with_mismatch (g : Gathered) : Gathered :=
  {| have_match_for := have_match_for g; websocket_mismatch := true |}.

Inductive MatchOutcome : Type :=
| Found (r : Rule) (args : list (string * string)) (g : Gathered)
| SlashRequired
| NoRule (g : Gathered).

(** The three places where [StateMachineMatcher._match] looks at the
    rules of a state: at the end of the path; one closing slash
    further in the rule; one closing slash short in the path, for
    rules that are not strict about it.  A rule takes the request when
    it lists the method and is of the kind of the request. *)
Fixpoint exact_rules (rules : list Rule) (segs : list string) (m : string)
         (ws : bool) (g : Gathered)
  : option (Rule * list (string * string)) * Gathered :=
  match rules with
  | [] => (None, g)
  | r :: rest =>
      match match_parts (parts r) segs with
      | Hit args =>
          if negb (has_method m (methods r))
          then exact_rules rest segs m ws (with_methods (methods r) g)
          else if negb (Bool.eqb (websocket r) ws)
          then exact_rules rest segs m ws (with_mismatch g)
          else (Some (r, args), g)
      | _ => exact_rules rest segs m ws g
      end
  end.

Fixpoint slash_rules (rules : list Rule) (segs : list string) (m : string)
         (ws : bool) : option (Rule * bool) :=
  match rules with
  | [] => None
  | r :: rest =>
      match match_parts (parts r) segs with
      | SlashMissing =>
          if Bool.eqb ws (websocket r) && has_method m (methods r)
          then Some (r, strict_slashes r)
          else slash_rules rest segs m ws
      | _ => slash_rules rest segs m ws
      end
  end.

Fixpoint lax_rules (rules : list Rule) (segs : list string) (m : string)
         (ws : bool) (g : Gathered)
  : option (Rule * list (string * string)) * Gathered :=
  match rules with
  | [] => (None, g)
  | r :: rest =>
      match match_parts (parts r) segs with
      | SlashExtra args =>
          if strict_slashes r then lax_rules rest segs m ws g
          else if negb (has_method m (methods r))
          then lax_rules rest segs m ws (with_methods (methods r) g)
          else if negb (Bool.eqb (websocket r) ws)
          then lax_rules rest segs m ws (with_mismatch g)
          else (Some (r, args), g)
      | _ => lax_rules rest segs m ws g
      end
  end.

Definition match_once (rules : list Rule) (p m : string) (ws : bool)
           (g : Gathered) : MatchOutcome :=
  let segs := split "/" p in
  match exact_rules rules segs m ws g with
  | (Some (r, args), g1) => Found r args g1
  | (None, g1) =>
      match slash_rules rules segs m ws with
      | Some (_, true) => SlashRequired
      | Some (r, false) => Found r [] g1
      | None =>
          match lax_rules rules segs m ws g1 with
          | (Some (r, args), g2) => Found r args g2
          | (None, g2) => NoRule g2
          end
      end
  end.

Fixpoint lstrip (c : ascii) (s : string) : string :=
  match s with
  | String x r => if Ascii.eqb x c then lstrip c r else s
  | EmptyString => EmptyString
  end.

(** The adapter's [path_part]: one leading slash, however many the
    path came with. *)
Definition path_part (path_info : string) : string :=
  if String.eqb path_info "" then "" else String "/" (lstrip "/" path_info).

(** How [MapAdapter.match] reports a search without a rule: the
    methods other rules would take, in the order of the process, or
    else the mismatch of kinds, or else nothing found. *)
Definition no_match (g : Gathered) : PyExc :=
  match have_match_for g with
  | [] => if websocket_mismatch g then WebsocketMismatch else NotFound
  | have => MethodNotAllowed (set_order have)
  end.

(** [MapAdapter.match]: the rule and its arguments, or one of the
    routing exceptions.  [ws] tells a WebSocket request from an HTTP
    one.  A path that finds its rule only after its slashes are merged
    is redirected to the merged path; the target is written relative
    to the URL root. *)
Definition url_match (rules : list Rule) (path_info query m : string)
           (ws : bool) : Result (Rule * list (string * string)) :=
  let p := path_part path_info in
  let redirect (to : string) : Result (Rule * list (string * string)) :=
    Raise (RequestRedirect
             (if String.eqb query "" then to else to ++ "?" ++ query)) in
  match match_once rules p m ws nothing_gathered with
  | Found r args _ => Ok (r, args)
  | SlashRequired => redirect (p ++ "/")
  | NoRule g1 =>
      let merged := merge_slashes_in p in
      match match_once rules merged m ws g1 with
      | SlashRequired => redirect (merged ++ "/")
      | Found r _ g2 =>
          if merge_slashes r then redirect merged else Raise (no_match g2)
      | NoRule g2 => Raise (no_match g2)
      end
  end.

(** [MapAdapter.allowed_methods]: match with a method no rule has and
    read the answer off the exception. *)
Definition allowed_methods (rules : list Rule) (p : string) (ws : bool)
  : list string :=
  match url_match rules p "" "--" ws with
  | Raise (MethodNotAllowed valid) => valid
  | _ => []
  end.

End Werkzeug.

(** ** The interpreter's world and the module monad

    A module body runs against the process environment and a store of
    application objects; each library call that changes the store or
    reaches outside the process leaves an event.  An exception ends
    the run and keeps the world as it was when raised. *)

Section World.

Record Config : Type := mkConfig { DEBUG : bool }.

(** A Python function used as a view: its qualified name, standing
    for its identity, and what calling it does.  A view sees the
    configuration of the current app, the arguments the URL gave, and
    the request; it has no handle on the world. *)
Record ViewFunction : Type := mkView {
  qualname : string;
  call : Config -> list (string * string) -> Request -> Result Response
}.

Record App : Type := mkApp {
  import_name : string;
  config : Config;
  url_map : list Rule;
  view_functions : gmap string ViewFunction;
  after_request_funcs : list (Request -> Response -> Response)
}.

Inductive Event : Type :=
| EvNewApp (ref : nat) (name : string)
| EvAddUrlRule (ref : nat) (rule endpoint : string)
| EvAfterRequest (ref : nat)
| EvRun (ref : nat) (host : string) (port : Z).

Record World : Type := mkWorld {
  environ : gmap string string;
  argv : list string;
  objects : list App;
  events : list Event
}.

Definition M (A : Type) : Type := World -> Result A * World.

Definition ret {A} (a : A) : M A := fun w => (Ok a, w).

Definition bind {A B} (c : M A) (k : A -> M B) : M B :=
  fun w => match c w with
           | (Ok a, w') => k a w'
           | (Raise e, w') => (Raise e, w')
           end.

Definition raise {A} (e : PyExc) : M A := fun w => (Raise e, w).

Definition lift {A} (r : Result A) : M A := fun w => (r, w).

Definition emit (e : Event) : M unit :=
  fun w => (Ok tt, {| environ := environ w; argv := argv w;
                      objects := objects w; events := events w ++ [e] |}).

Definition getenv : M (gmap string string) := fun w => (Ok (environ w), w).

Definition allocate (a : App) : M nat :=
  fun w => (Ok (length (objects w)),
            {| environ := environ w; argv := argv w;
               objects := objects w ++ [a]; events := events w |}).

Definition deref (ref : nat) : M App :=
  fun w => match objects w !! ref with
           | Some a => (Ok a, w)
           | None => (Raise (KeyError "dangling reference"), w)
           end.

(** In-place update of the object behind [ref]: every holder of the
    reference sees it. *)
Definition mutate (ref : nat) (f : App -> App) : M unit :=
  fun w => match objects w !! ref with
           | Some a =>
               (Ok tt, {| environ := environ w; argv := argv w;
                          objects := <[ref := f a]> (objects w);
                          events := events w |})
           | None => (Raise (KeyError "dangling reference"), w)
           end.

End World.

Notation "x <- c ;; k" := (bind c (fun x => k))
  (at level 100, c at next level, right associativity).
Notation "c ;;; k" := (bind c (fun _ => k))
  (at level 100, right associativity).

(** ** Flask *)

Section Flask.

(** The view behind the [static] endpoint, [send_static_file]: it
    reads the file system and answers conditional and range requests,
    none of which this development needs to look into. *)
Variable send_static_file : string -> Request -> Result Response.

(** [helpers.get_debug_flag]. *)
Definition get_debug_flag (env : gmap string string) : bool :=
  match env !! "FLASK_DEBUG" with
  | Some val =>
      negb (String.eqb val "")
      && negb (existsb (String.eqb (lower val)) ["0"; "false"; "no"])
  | None => false
  end.

(** [app.add_url_rule(rule, endpoint, view_func, methods=...)]: GET by
    default; OPTIONS is added, and answered by Flask itself, unless
    the caller lists it; the rule enters the map before the endpoint
    is checked. *)
Definition add_url_rule (ref : nat) (rule endpoint : string)
           (view_func : ViewFunction) (methods : option (list string))
  : M unit :=
  let ms := map upper (default ["GET"] methods) in
  let auto := negb (has_method "OPTIONS" ms) in
  let ms := if auto then (ms ++ ["OPTIONS"])%list else ms in
  r <- lift (new_rule rule ms endpoint auto) ;;
  mutate ref (fun a =>
    {| import_name := import_name a; config := config a;
       url_map := url_map a ++ [r];
       view_functions := view_functions a;
       after_request_funcs := after_request_funcs a |}) ;;;
  emit (EvAddUrlRule ref rule endpoint) ;;;
  a <- deref ref ;;
  match view_functions a !! endpoint with
  | Some old =>
      if String.eqb (qualname old) (qualname view_func) then ret tt
      else raise (AssertionError
                    ("View function mapping is overwriting an existing endpoint function: "
                       ++ endpoint))
  | None => ret tt
  end ;;;
  mutate ref (fun a =>
    {| import_name := import_name a; config := config a;
       url_map := url_map a;
       view_functions := <[endpoint := view_func]> (view_functions a);
       after_request_funcs := after_request_funcs a |}).

(** [@app.route(rule)] applied to [f]: the endpoint is the function's
    name, and the decorator hands [f] back. *)
Definition route (ref : nat) (rule : string) (f : ViewFunction)
  : M ViewFunction :=
  add_url_rule ref rule (qualname f) f None ;;;
  ret f.

(** [@app.after_request]. *)
Definition after_request (ref : nat) (f : Request -> Response -> Response)
  : M unit :=
  mutate ref (fun a =>
    {| import_name := import_name a; config := config a;
       url_map := url_map a;
       view_functions := view_functions a;
       after_request_funcs := after_request_funcs a ++ [f] |}) ;;;
  emit (EvAfterRequest ref).

(** The keyword argument a rule's converter produced. *)
Fixpoint view_arg (name : string) (args : list (string * string))
  : option string :=
  match args with
  | [] => None
  | (k, v) :: r => if String.eqb k name then Some v else view_arg name r
  end.

Definition static_view : ViewFunction :=
  {| qualname := "<lambda>";
     call := fun _ args req =>
               send_static_file (default "" (view_arg "filename" args)) req |}.

(** [Flask(import_name)] with every other argument at its default: the
    debug flag comes from the environment, and, [static_folder] being
    ['static'], the static route is registered at once. *)
Definition Flask (name : string) : M nat :=
  env <- getenv ;;
  ref <- allocate {| import_name := name;
                     config := {| DEBUG := get_debug_flag env |};
                     url_map := [];
                     view_functions := ∅;
                     after_request_funcs := [] |} ;;
  emit (EvNewApp ref name) ;;;
  add_url_rule ref "/static/<path:filename>" "static" static_view None ;;;
  ret ref.

(** [app.run(host, port)]: the request to the development server to
    listen on [host:port] and serve the app.  What the server then
    does with sockets lies outside the model; the event is the call. *)
Definition run (ref : nat) (host : string) (port : Z) : M unit :=
  deref ref ;;;
  emit (EvRun ref host port).

(** [flask.jsonify(v)]: the provider's [response], compact unless the
    app is in debug mode, one line feed after the document. *)
Definition jsonify (cfg : Config) (v : pyvalue) : Result Response :=
  rbind (dumps (if DEBUG cfg then Some 2%nat else None) v) (fun text =>
  Ok (make_text_response (text ++ nl) "application/json")).

(** [make_default_options_response]: an empty 200 whose [Allow] lists
    the methods of the rules for this path. *)
Definition make_default_options_response (a : App) (req : Request) : Response :=
  {| status_code := 200;
     resp_headers := [("Content-Type", "text/html; charset=utf-8");
                      ("Allow",
                       join ", " (allowed_methods (url_map a) (path req)
                                    (is_websocket req)))];
     body := Data "" |}.

(** [dispatch_request]: match the URL, answer OPTIONS for a rule that
    asks for it, otherwise call the view of the endpoint. *)
Definition dispatch_request (a : App) (req : Request) : Result Response :=
  rbind (url_match (url_map a) (path req) (query_string req) (method req)
           (is_websocket req))
    (fun '(r, args) =>
       if provide_automatic_options r && String.eqb (method req) "OPTIONS"
       then Ok (make_default_options_response a req)
       else match view_functions a !! endpoint r with
            | Some v => call v (config a) args req
            | None => Raise (KeyError (endpoint r))
            end).

(** [process_response]: the after-request functions, last registered
    first. *)
Definition process_response (a : App) (req : Request) (resp : Response)
  : Response :=
  fold_left (fun acc f => f req acc) (rev (after_request_funcs a)) resp.

(** [full_dispatch_request]: an exception out of routing or the view
    becomes its response, and every response goes through
    [process_response]. *)
Definition full_dispatch_request (a : App) (req : Request) : Response :=
  let rv := match dispatch_request a req with
            | Ok resp => resp
            | Raise e => exception_response e
            end in
  process_response a req rv.

(** [wsgi_app]: what goes on the wire; a HEAD request gets the
    headers without the body.  A response built without a text gets
    its length header only as it is sent; that header is not
    modelled. *)
Definition wsgi_app (a : App) (req : Request) : Response :=
  let resp := full_dispatch_request a req in
  if String.eqb (method req) "HEAD"
  then {| status_code := status_code resp;
          resp_headers := resp_headers resp;
          body := Data "" |}
  else resp.

End Flask.

(** ** Flask-CORS *)

Section FlaskCors.

(** An entry of [origins], after the extension has rewritten ['*'] to
    the regular expression ['.*']. *)
Inductive OriginPattern : Type :=
| AnyOrigin
| ExactOrigin (origin : string).

Record CorsOptions : Type := mkCorsOptions {
  origins : list OriginPattern;
  resources : string -> bool;
  send_wildcard : bool;
  always_send : bool;
  supports_credentials : bool;
  vary_header : bool
}.

(** The options of a bare [CORS(app)].  The default resource pattern
    [r'/*'] is a regular expression, any number of slashes, and
    [re.match] finds it at the head of every path. *)
Definition default_options : CorsOptions :=
  {| origins := [AnyOrigin];
     resources := fun _ => true;
     send_wildcard := false;
     always_send := true;
     supports_credentials := false;
     vary_header := true |}.

Definition ACL_ORIGIN : string := "Access-Control-Allow-Origin".

Definition is_any (p : OriginPattern) : bool :=
  match p with
  | AnyOrigin => true
  | ExactOrigin _ => false
  end.

Definition try_match (request_origin : string) (p : OriginPattern) : bool :=
  match p with
  | AnyOrigin => true
  | ExactOrigin o => String.eqb (lower request_origin) (lower o)
  end.

Definition exact_origins (ps : list OriginPattern) : list string :=
  flat_map (fun p => match p with
                     | AnyOrigin => []
                     | ExactOrigin o => [o]
                     end) ps.

(** [get_cors_origins]: the values for the allow-origin header, or
    [None] when the response is to carry none. *)
Definition get_cors_origins (opts : CorsOptions) (request_origin : option string)
  : option (list string) :=
  let wildcard := existsb is_any (origins opts) in
  let without_origin :=
    if always_send opts then
      if wildcard then
        if supports_credentials opts then None else Some ["*"]
      else
        Some (map fst (sort_by_key
                         (map (fun o => (o, "")) (exact_origins (origins opts)))))
    else None in
  match request_origin with
  | Some o =>
      if String.eqb o "" then without_origin
      else if wildcard && send_wildcard opts then Some ["*"]
      else if existsb (try_match o) (origins opts) then Some [o]
      else None
  | None => without_origin
  end.

(** [get_cors_headers], as far as the origin goes: the allow-origin
    values, the credentials flag, and [Vary: Origin] when the value
    follows the request.  The further headers of a preflight answer
    (allowed methods and request headers) are not modelled. *)
Definition get_cors_headers (opts : CorsOptions) (req : Request)
  : list (string * string) :=
  match get_cors_origins opts (header_get "Origin" (headers req)) with
  | None | Some [] => []
  | Some (first :: more) =>
      let allow := map (fun o => (ACL_ORIGIN, o)) (first :: more) in
      let creds := if supports_credentials opts
                   then [("Access-Control-Allow-Credentials", "true")]
                   else [] in
      let vary :=
        if vary_header opts
           && negb (String.eqb first "*")
           && ((1 <? length (origins opts))%nat
               || (1 <? length (first :: more))%nat
               || existsb is_any (origins opts))
        then [("Vary", "Origin")]
        else [] in
      (allow ++ creds ++ vary)%list
  end.

Definition set_cors_headers (opts : CorsOptions) (req : Request) (resp : Response)
  : Response :=
  {| status_code := status_code resp;
     resp_headers := fold_left (fun hs kv => header_add (fst kv) (snd kv) hs)
                               (get_cors_headers opts req) (resp_headers resp);
     body := body resp |}.

(** [cors_after_request]: leave alone a response that already carries
    an allow-origin value; otherwise apply the options of the first
    resource pattern the path matches. *)
Definition cors_after_request (opts : CorsOptions) (req : Request) (resp : Response)
  : Response :=
  match header_get ACL_ORIGIN (resp_headers resp) with
  | Some v =>
      if String.eqb v "" then
        if resources opts (path req) then set_cors_headers opts req resp else resp
      else resp
  | None =>
      if resources opts (path req) then set_cors_headers opts req resp else resp
  end.

(** [CORS(app)]: install the hook on the app. *)
Definition CORS (ref : nat) : M unit :=
  after_request ref (cors_after_request default_options).

End FlaskCors.

(** ** The module [backend/app.py] *)

Section AppPy.

Variable send_static_file : string -> Request -> Result Response.

(** [def status(): return jsonify({'message': ...})].  The function
    has no parameter: called with a keyword argument it raises
    [TypeError] before its body runs. *)
Definition status : ViewFunction :=
  {| qualname := "status";
     call := fun cfg kwargs _ =>
               match kwargs with
               | [] =>
                   jsonify cfg
                     (PyDict [("message", PyStr "Backend rodando com sucesso!")])
               | (k, _) :: _ =>
                   Raise (TypeError
                            ("status() got an unexpected keyword argument '"
                               ++ k ++ "'"))
               end |}.

(** The names the module binds. *)
Record Namespace : Type := mkNamespace {
  ns_app : nat;
  ns_status : ViewFunction
}.

(** The module body, top to bottom.  [__name__] is ['__main__'] when
    the file is run as a script and the module's dotted name when it
    is imported. *)
Definition app_py (__name__ : string) : M Namespace :=
  app <- Flask send_static_file __name__ ;;
  CORS app ;;;
  status <- route app "/status" status ;;
  (if String.eqb __name__ "__main__"
   then run app "0.0.0.0" 10000
   else ret tt) ;;;
  ret {| ns_app := app; ns_status := status |}.

(** A fresh interpreter: nothing allocated, nothing done yet. *)
Definition boot (env : gmap string string) (args : list string) : World :=
  {| environ := env; argv := args; objects := []; events := [] |}.

(** The application object the module leaves under the name [app]. *)
Definition application (__name__ : string) (env : gmap string string)
           (args : list string) : option App :=
  match app_py __name__ (boot env args) with
  | (Ok ns, w) => objects w !! ns_app ns
  | (Raise _, _) => None
  end.

(** The events of loading the module. *)
Definition effects (__name__ : string) (env : gmap string string)
           (args : list string) : list Event :=
  events (snd (app_py __name__ (boot env args))).

End AppPy.

(** ** What loading the module builds *)

Section Built.

Variable send_static_file : string -> Request -> Result Response.

Definition all_methods : list string := ["GET"; "OPTIONS"; "HEAD"].

(** The rule Flask registers for the static folder. *)
Definition static_rule : Rule :=
  {| rule := "/static/<path:filename>";
     parts := [Static ""; Static "static"; PathConverter "filename"];
     methods := all_methods;
     endpoint := "static";
     strict_slashes := true;
     merge_slashes := true;
     websocket := false;
     provide_automatic_options := true |}.

(** The rule the decorator on [status] registers. *)
Definition status_rule : Rule :=
  {| rule := "/status";
     parts := [Static ""; Static "status"];
     methods := all_methods;
     endpoint := "status";
     strict_slashes := true;
     merge_slashes := true;
     websocket := false;
     provide_automatic_options := true |}.

Definition built_app (name : string) (debug : bool) : App :=
  {| import_name := name;
     config := {| DEBUG := debug |};
     url_map := [static_rule; status_rule];
     view_functions :=
       <["status" := status]> (<["static" := static_view send_static_file]> ∅);
     after_request_funcs := [cors_after_request default_options] |}.

Definition module_events (name : string) : list Event :=
  [EvNewApp 0 name;
   EvAddUrlRule 0 "/static/<path:filename>" "static";
   EvAfterRequest 0;
   EvAddUrlRule 0 "/status" "status"].

End Built.

(** ** Vocabulary of the properties *)

(** The document the status route promises. *)
Definition status_document : pyvalue :=
  PyDict [("message", PyStr "Backend rodando com sucesso!")].

(** The same document as text, in the two layouts of the provider:
    on one line, or indented by two when the app is in debug mode;
    one line feed closes either. *)
Definition status_text (debug : bool) : string :=
  let q := chr dquote in
  let message := q ++ "message" ++ q in
  let text := q ++ "Backend rodando com sucesso!" ++ q in
  if debug
  then "{" ++ nl ++ "  " ++ message ++ ": " ++ text ++ nl ++ "}" ++ nl
  else "{" ++ message ++ ":" ++ text ++ "}" ++ nl.

(** [Response.get_json] on the client's side. *)
Definition get_json (resp : Response) : option pyvalue :=
  match body resp with
  | Data text => loads text
  | _ => None
  end.

Definition content_type (resp : Response) : option string :=
  header_get "Content-Type" (resp_headers resp).

Definition allow_origin (resp : Response) : option string :=
  header_get ACL_ORIGIN (resp_headers resp).

(** A rule speaks for a path when its parts meet the path's, a
    closing slash more or less included. *)
Definition covers (r : Rule) (p : string) : bool :=
  match match_parts (parts r) (split "/" p) with
  | Miss => false
  | _ => true
  end.

Definition route_defined (rules : list Rule) (p : string) : bool :=
  existsb (fun r => covers r p) rules.

Definition is_run (e : Event) : bool :=
  match e with
  | EvRun _ _ _ => true
  | _ => false
  end.

(** *** Sample inputs *)

(** A static folder holding one file. *)
Definition one_file_folder (filename : string) (req : Request)
  : Result Response :=
  if String.eqb filename "robots.txt"
  then Ok (make_text_response "User-agent: *" "text/plain")
  else Raise NotFound.

Definition request_for (m p : string) (hs : list (string * string)) : Request :=
  {| method := m; path := p; query_string := ""; headers := hs; data := "" |}.

Definition sample_app : App := built_app one_file_folder "__main__" false.

Definition get_status : Request := request_for "GET" "/status" [].

Definition get_status_from_shop : Request :=
  {| method := "GET"; path := "/status"; query_string := "verbose=1";
     headers := [("Origin", "https://shop.example"); ("Accept", "*/*")];
     data := "ping" |}.

Definition head_status : Request := request_for "HEAD" "/status" [].

Definition options_status : Request := request_for "OPTIONS" "/status" [].


Definition post_static_file : Request :=
  request_for "POST" "/static/robots.txt" [].

Definition get_status_slash : Request := request_for "GET" "/status/" [].

Definition get_static_double_slash : Request :=
  request_for "GET" "/static//x" [].

Definition delete_nowhere_from_shop : Request :=
  request_for "DELETE" "/nowhere" [("Origin", "https://shop.example")].

(** The same request under another method. *)
Definition with_method (m : string) (req : Request) : Request :=
  {| method := m; path := path req; query_string := query_string req;
     headers := headers req; data := data req |}.

(** How many entries a header list holds under a name. *)
Fixpoint header_count (name : string) (hs : list (string * string)) : nat :=
  match hs with
  | [] => 0%nat
  | (k, _) :: r =>
      if String.eqb (lower k) (lower name) then S (header_count name r)
      else header_count name r
  end.

(** The statuses Flask and Werkzeug produce on their own for this
    application. *)
Definition framework_statuses : list Z := [200; 308; 400; 404; 405].



Definition put_status_health : Request :=
  request_for "PUT" "/status/health" [].

(** A GET for [/status] that asks to switch to the WebSocket
    protocol, and a process that lists a set of names backwards. *)
Definition get_status_upgrade : Request :=
  request_for "GET" "/status"
    [("Connection", "keep-alive, Upgrade"); ("Upgrade", "websocket")].

Definition backwards : list string -> list string := @rev string.

(** ** Strings *)

Lemma split_cons sep s : exists x xs, split sep s = x :: xs.
Proof.
  destruct s as [|c s]; simpl; [eauto|].
  destruct (Ascii.eqb c sep); [eauto|].
  destruct (split sep s); eauto.
Qed.

(** Cutting at a character and gluing with it gives the text back. *)
Lemma join_split sep s : join (chr sep) (split sep s) = s.
Proof.
  induction s as [|c s IH]; [reflexivity|].
  destruct (split_cons sep s) as (x & xs & Hs).
  simpl split. rewrite Hs in *.
  destruct (Ascii.eqb_spec c sep) as [->|_].
  - change (join (chr sep) ("" :: x :: xs))
      with (String sep (join (chr sep) (x :: xs))).
    rewrite IH. reflexivity.
  - destruct xs as [|y ys]; simpl in *; rewrite <- IH; reflexivity.
Qed.

(** ** Headers and the CORS hook *)

Lemma header_get_app name hs more :
  header_get name (hs ++ more) =
  match header_get name hs with
  | Some v => Some v
  | None => header_get name more
  end.
Proof.
  induction hs as [|[k v] hs IH]; simpl; [reflexivity|].
  destruct (String.eqb (lower k) (lower name)); [reflexivity | exact IH].
Qed.

Lemma header_add_all hs more :
  fold_left (fun acc kv => header_add (fst kv) (snd kv) acc) more hs
  = (hs ++ more)%list.
Proof.
  revert hs. induction more as [|[k v] more IH]; intros hs; simpl.
  - symmetry. apply app_nil_r.
  - rewrite IH. unfold header_add. simpl. rewrite <- app_assoc. reflexivity.
Qed.

Lemma cors_status_code opts req resp :
  status_code (cors_after_request opts req resp) = status_code resp.
Proof.
  unfold cors_after_request.
  destruct (header_get ACL_ORIGIN (resp_headers resp)) as [v|];
    [destruct (String.eqb v "")|]; destruct (resources opts (path req));
    reflexivity.
Qed.

Lemma cors_body opts req resp :
  body (cors_after_request opts req resp) = body resp.
Proof.
  unfold cors_after_request.
  destruct (header_get ACL_ORIGIN (resp_headers resp)) as [v|];
    [destruct (String.eqb v "")|]; destruct (resources opts (path req));
    reflexivity.
Qed.

Lemma cors_keeps_header opts req resp name v :
  header_get name (resp_headers resp) = Some v ->
  header_get name (resp_headers (cors_after_request opts req resp)) = Some v.
Proof.
  intros H. unfold cors_after_request.
  destruct (header_get ACL_ORIGIN (resp_headers resp)) as [w|];
    [destruct (String.eqb w "")|]; destruct (resources opts (path req));
    try exact H; unfold set_cors_headers; simpl;
    rewrite header_add_all, header_get_app, H; reflexivity.
Qed.

(** With the options of a bare [CORS(app)], a response that carries no
    allow-origin value leaves the hook with one: the origin the request
    named, or the wildcard. *)
Lemma cors_default_allows req resp :
  allow_origin resp = None ->
  exists v,
    allow_origin (cors_after_request default_options req resp) = Some v
    /\ (v = "*" \/ header_get "Origin" (headers req) = Some v).
Proof.
  unfold allow_origin, cors_after_request. intros H. rewrite H. simpl.
  rewrite header_add_all, header_get_app, H.
  unfold get_cors_headers, get_cors_origins. simpl.
  destruct (header_get "Origin" (headers req)) as [o|] eqn:Ho.
  - destruct (String.eqb o "") eqn:Eo.
    + exists "*". split; [reflexivity | left; reflexivity].
    + exists o. split; [reflexivity | right; reflexivity].
  - exists "*". split; [reflexivity | left; reflexivity].
Qed.

(** ** The URL map *)

Section Routing.

Implicit Types (rules : list Rule) (r : Rule) (p m : string) (ws : bool)
         (g : Gathered).

Lemma exact_rules_undefined rules p m ws g :
  route_defined rules p = false ->
  exact_rules rules (split "/" p) m ws g = (None, g).
Proof.
  unfold route_defined, covers.
  induction rules as [|r rules IH]; simpl; intros H; [reflexivity|].
  apply orb_false_iff in H as [Hr Hrest].
  destruct (match_parts (parts r) (split "/" p)); try discriminate.
  apply IH, Hrest.
Qed.

Lemma slash_rules_undefined rules p m ws :
  route_defined rules p = false ->
  slash_rules rules (split "/" p) m ws = None.
Proof.
  unfold route_defined, covers.
  induction rules as [|r rules IH]; simpl; intros H; [reflexivity|].
  apply orb_false_iff in H as [Hr Hrest].
  destruct (match_parts (parts r) (split "/" p)); try discriminate.
  apply IH, Hrest.
Qed.

Lemma lax_rules_undefined rules p m ws g :
  route_defined rules p = false ->
  lax_rules rules (split "/" p) m ws g = (None, g).
Proof.
  unfold route_defined, covers.
  induction rules as [|r rules IH]; simpl; intros H; [reflexivity|].
  apply orb_false_iff in H as [Hr Hrest].
  destruct (match_parts (parts r) (split "/" p)); try discriminate.
  apply IH, Hrest.
Qed.

Lemma match_once_undefined rules p m ws g :
  route_defined rules p = false ->
  match_once rules p m ws g = NoRule g.
Proof.
  intros H. unfold match_once.
  rewrite (exact_rules_undefined _ _ _ _ _ H), (slash_rules_undefined _ _ _ _ H),
    (lax_rules_undefined _ _ _ _ _ H).
  reflexivity.
Qed.

(** No rule for the path, none for the path with its slashes merged:
    the adapter raises [NotFound], whatever the method and the kind of
    the request. *)
Lemma url_match_undefined rules p q m ws :
  route_defined rules (path_part p) = false ->
  route_defined rules (merge_slashes_in (path_part p)) = false ->
  url_match rules p q m ws = Raise NotFound.
Proof.
  intros H1 H2. unfold url_match.
  rewrite (match_once_undefined _ _ _ _ _ H1),
    (match_once_undefined _ _ _ _ _ H2).
  reflexivity.
Qed.

(** A rule that takes the request meets the path part for part, lists
    the method and is of the kind of the request. *)
Lemma exact_rules_found rules segs m ws g r args g' :
  exact_rules rules segs m ws g = (Some (r, args), g') ->
  In r rules
  /\ match_parts (parts r) segs = Hit args
  /\ has_method m (methods r) = true
  /\ websocket r = ws.
Proof.
  revert g. induction rules as [|r0 rules IH]; simpl; intros g H;
    [discriminate|].
  assert (Hrest : forall g0,
             exact_rules rules segs m ws g0 = (Some (r, args), g') ->
             (r0 = r \/ In r rules)
             /\ match_parts (parts r) segs = Hit args
             /\ has_method m (methods r) = true
             /\ websocket r = ws).
  { intros g0 H0. destruct (IH _ H0) as (Hin & Hrest). split; [right|]; assumption. }
  destruct (match_parts (parts r0) segs) eqn:Ep;
    try (eapply Hrest; exact H).
  destruct (has_method m (methods r0)) eqn:Em; simpl in H;
    [|eapply Hrest; exact H].
  destruct (Bool.eqb (websocket r0) ws) eqn:Ew; simpl in H;
    [|eapply Hrest; exact H].
  injection H as <- <- _. apply Bool.eqb_prop in Ew.
  repeat split; [left; reflexivity | assumption..].
Qed.

Lemma slash_rules_found rules segs m ws r strict :
  slash_rules rules segs m ws = Some (r, strict) ->
  In r rules /\ strict = strict_slashes r.
Proof.
  induction rules as [|r0 rules IH]; simpl; intros H; [discriminate|].
  assert (Hrest : slash_rules rules segs m ws = Some (r, strict) ->
                  (r0 = r \/ In r rules) /\ strict = strict_slashes r).
  { intros H0. destruct (IH H0). split; [right|]; assumption. }
  destruct (match_parts (parts r0) segs); try (apply Hrest; exact H).
  destruct (Bool.eqb ws (websocket r0) && has_method m (methods r0)).
  - injection H as <- <-. split; [left|]; reflexivity.
  - apply Hrest; exact H.
Qed.

Lemma lax_rules_found rules segs m ws g r args g' :
  lax_rules rules segs m ws g = (Some (r, args), g') ->
  In r rules /\ strict_slashes r = false.
Proof.
  revert g. induction rules as [|r0 rules IH]; simpl; intros g H;
    [discriminate|].
  assert (Hrest : forall g0,
             lax_rules rules segs m ws g0 = (Some (r, args), g') ->
             (r0 = r \/ In r rules) /\ strict_slashes r = false).
  { intros g0 H0. destruct (IH _ H0). split; [right|]; assumption. }
  destruct (match_parts (parts r0) segs); try (eapply Hrest; exact H).
  destruct (strict_slashes r0) eqn:Es; [eapply Hrest; exact H|].
  destruct (has_method m (methods r0)); simpl in H; [|eapply Hrest; exact H].
  destruct (Bool.eqb (websocket r0) ws); simpl in H; [|eapply Hrest; exact H].
  injection H as <- _ _. split; [left; reflexivity | exact Es].
Qed.

Lemma match_once_in rules p m ws g r args g' :
  match_once rules p m ws g = Found r args g' -> In r rules.
Proof.
  unfold match_once.
  destruct (exact_rules rules (split "/" p) m ws g) as [[[r1 a1]|] g1] eqn:E1.
  - intros H. injection H as <- _ _. eapply exact_rules_found; exact E1.
  - destruct (slash_rules rules (split "/" p) m ws) as [[r2 [|]]|] eqn:E2.
    + discriminate.
    + intros H. injection H as <- _ _. eapply slash_rules_found; exact E2.
    + destruct (lax_rules rules (split "/" p) m ws g1) as [[[r3 a3]|] g3] eqn:E3.
      * intros H. injection H as <- _ _. eapply lax_rules_found; exact E3.
      * discriminate.
Qed.

(** A rule that is strict about slashes is found only by meeting the
    path part for part. *)
Lemma match_once_found_strict rules p m ws g r args g' :
  match_once rules p m ws g = Found r args g' ->
  strict_slashes r = true ->
  match_parts (parts r) (split "/" p) = Hit args
  /\ has_method m (methods r) = true
  /\ websocket r = ws.
Proof.
  unfold match_once. intros H Hs.
  destruct (exact_rules rules (split "/" p) m ws g) as [[[r1 a1]|] g1] eqn:E1.
  - injection H as <- <- _. eapply exact_rules_found; exact E1.
  - destruct (slash_rules rules (split "/" p) m ws) as [[r2 [|]]|] eqn:E2.
    + discriminate.
    + injection H as <- _ _. apply slash_rules_found in E2 as [_ E2].
      congruence.
    + destruct (lax_rules rules (split "/" p) m ws g1) as [[[r3 a3]|] g3] eqn:E3.
      * injection H as <- _ _. apply lax_rules_found in E3 as [_ E3].
        congruence.
      * discriminate.
Qed.

(** The adapter answers with a rule only from its first pass. *)
Lemma url_match_ok_first_pass rules p q m ws r args :
  url_match rules p q m ws = Ok (r, args) ->
  exists g, match_once rules (path_part p) m ws nothing_gathered = Found r args g.
Proof.
  unfold url_match.
  destruct (match_once rules (path_part p) m ws nothing_gathered)
    as [r1 a1 g1| |g1].
  - intros [= <- <-]. eauto.
  - discriminate.
  - destruct (match_once rules (merge_slashes_in (path_part p)) m ws g1)
      as [r2 a2 g2| |g2]; [destruct (merge_slashes r2)| |]; discriminate.
Qed.

(** A rule the adapter returns is a rule of the map. *)
Lemma url_match_in rules p q m ws r args :
  url_match rules p q m ws = Ok (r, args) -> In r rules.
Proof.
  intros H. apply url_match_ok_first_pass in H as [g H].
  eapply match_once_in; exact H.
Qed.

(** What the adapter raises is one of the four routing exceptions. *)
Lemma url_match_raises rules p q m ws e :
  url_match rules p q m ws = Raise e ->
  e = NotFound
  \/ e = WebsocketMismatch
  \/ (exists valid, e = MethodNotAllowed valid)
  \/ (exists url, e = RequestRedirect url).
Proof.
  assert (Hno : forall g,
             no_match g = NotFound
             \/ no_match g = WebsocketMismatch
             \/ (exists valid, no_match g = MethodNotAllowed valid)
             \/ (exists url, no_match g = RequestRedirect url)).
  { intros [[|h have] [|]]; unfold no_match; simpl; eauto. }
  unfold url_match.
  destruct (match_once rules (path_part p) m ws nothing_gathered)
    as [r1 a1 g1| |g1].
  - discriminate.
  - intros [= <-]. do 3 right. eauto.
  - destruct (match_once rules (merge_slashes_in (path_part p)) m ws g1)
      as [r2 a2 g2| |g2]; [destruct (merge_slashes r2)| |];
      intros [= <-]; try apply Hno; do 3 right; eauto.
Qed.

Lemma status_rule_hit p args :
  match_parts (parts status_rule) (split "/" p) = Hit args ->
  p = "/status" /\ args = [].
Proof.
  intros H. rewrite <- (join_split "/" p).
  destruct (split "/" p) as [|x [|y [|z zs]]];
    cbn [match_parts parts status_rule] in H; try discriminate.
  - destruct (String.eqb "" x); discriminate.
  - destruct (String.eqb "" x) eqn:Ex; [|discriminate].
    destruct (String.eqb "status" y) eqn:Ey; [|discriminate].
    apply String.eqb_eq in Ex, Ey. subst x y.
    injection H as <-. split; reflexivity.
  - destruct (String.eqb "" x); [|discriminate].
    destruct (String.eqb "status" y); [|discriminate].
    destruct z; [destruct zs|]; discriminate.
Qed.

Lemma split_below_status rest :
  split "/" ("/status/" ++ rest) = "" :: "status" :: split "/" rest.
Proof.
  destruct (split_cons "/" rest) as (x & xs & E).
  unfold String.append. simpl. rewrite E. reflexivity.
Qed.

Lemma match_once_below_status rest m ws g :
  match_once [static_rule; status_rule] ("/status/" ++ rest) m ws g
  = NoRule g.
Proof.
  unfold match_once. rewrite split_below_status.
  destruct (split_cons "/" rest) as (x & xs & ->).
  destruct x as [|c x]; destruct xs as [|y ys]; reflexivity.
Qed.

Lemma merge_after_slash rest :
  exists rest', merge_slashes_in (String "/" rest) = String "/" rest'.
Proof.
  induction rest as [|c rest IH]; [exists ""; reflexivity|].
  destruct (Ascii.eqb c "/") eqn:Ec.
  - apply Ascii.eqb_eq in Ec. subst c.
    change (merge_slashes_in (String "/" (String "/" rest)))
      with (merge_slashes_in (String "/" rest)).
    exact IH.
  - exists (merge_slashes_in (String c rest)).
    cbn [merge_slashes_in begins_with]. rewrite Ec. reflexivity.
Qed.

Lemma merge_below_status rest :
  exists rest', merge_slashes_in ("/status/" ++ rest) = "/status/" ++ rest'.
Proof.
  destruct (merge_after_slash rest) as (rest' & H).
  exists rest'.
  change (merge_slashes_in ("/status/" ++ rest))
    with ("/status" ++ merge_slashes_in (String "/" rest)).
  rewrite H. reflexivity.
Qed.

End Routing.
(** ** Loading the module *)

Section Properties.

Variable send_static_file : string -> Request -> Result Response.

(** The module body runs to its end without an exception; it leaves
    one application object, and the events below. *)
Lemma app_py_runs name env args :
  app_py send_static_file name (boot env args) =
  (Ok {| ns_app := 0; ns_status := status |},
   {| environ := env; argv := args;
      objects := [built_app send_static_file name (get_debug_flag env)];
      events := (module_events name ++
                 if String.eqb name "__main__"
                 then [EvRun 0 "0.0.0.0" 10000] else [])%list |}).
Proof.
  unfold app_py. destruct (String.eqb name "__main__"); reflexivity.
Qed.

Lemma application_built name env args a :
  application send_static_file name env args = Some a ->
  a = built_app send_static_file name (get_debug_flag env).
Proof.
  unfold application. rewrite app_py_runs. simpl. congruence.
Qed.

Lemma effects_eq name env args :
  effects send_static_file name env args =
  (module_events name ++
   if String.eqb name "__main__" then [EvRun 0 "0.0.0.0" 10000] else [])%list.
Proof. unfold effects. rewrite app_py_runs. reflexivity. Qed.

(** ** Serving a request *)

Lemma wsgi_status_code a req :
  status_code (wsgi_app a req) = status_code (full_dispatch_request a req).
Proof.
  unfold wsgi_app. destruct (String.eqb (method req) "HEAD"); reflexivity.
Qed.

Lemma wsgi_headers a req :
  resp_headers (wsgi_app a req) = resp_headers (full_dispatch_request a req).
Proof.
  unfold wsgi_app. destruct (String.eqb (method req) "HEAD"); reflexivity.
Qed.

Lemma full_dispatch_built name debug req :
  full_dispatch_request (built_app send_static_file name debug) req =
  cors_after_request default_options req
    match dispatch_request (built_app send_static_file name debug) req with
    | Ok resp => resp
    | Raise e => exception_response e
    end.
Proof. reflexivity. Qed.

Lemma dispatch_status_get name debug req :
  method req = "GET" -> path req = "/status" -> is_websocket req = false ->
  dispatch_request (built_app send_static_file name debug) req
  = jsonify {| DEBUG := debug |} status_document.
Proof.
  intros Hm Hp Hw. unfold dispatch_request. rewrite Hm, Hp, Hw. reflexivity.
Qed.

Lemma dispatch_status_upgrade name debug req :
  method req = "GET" -> path req = "/status" -> is_websocket req = true ->
  dispatch_request (built_app send_static_file name debug) req
  = Raise WebsocketMismatch.
Proof.
  intros Hm Hp Hw. unfold dispatch_request. rewrite Hm, Hp, Hw. reflexivity.
Qed.

Lemma jsonify_status_document debug :
  exists out,
    jsonify {| DEBUG := debug |} status_document = Ok out
    /\ status_code out = 200
    /\ body out = Data (status_text debug)
    /\ get_json out = Some status_document
    /\ content_type out = Some "application/json".
Proof.
  destruct debug; eexists; (split; [reflexivity|]); repeat split; reflexivity.
Qed.

(** C1, as the code has it. A GET request to [/status] that does not
    ask for the WebSocket protocol is answered by the [status] view
    with status 200, a body that reads back as [status_document] (the
    object whose one key, message, holds the success text), and the
    JSON content type; the response on the wire has the same three. *)
Theorem status_get_ok name env args a req :
  application send_static_file name env args = Some a ->
  method req = "GET" ->
  path req = "/status" ->
  is_websocket req = false ->
  (exists out,
     dispatch_request a req = Ok out
     /\ call status (config a) [] req = Ok out
     /\ status_code out = 200
     /\ get_json out = Some status_document
     /\ content_type out = Some "application/json")
  /\ status_code (wsgi_app a req) = 200
  /\ body (wsgi_app a req) = Data (status_text (DEBUG (config a)))
  /\ get_json (wsgi_app a req) = Some status_document
  /\ content_type (wsgi_app a req) = Some "application/json".
Proof.
  intros Ha Hm Hp Hw. apply application_built in Ha. subst a.
  destruct (jsonify_status_document (get_debug_flag env))
    as (out & Hout & Hcode & Hbody & Hjson & Hct).
  pose proof (dispatch_status_get name (get_debug_flag env) req Hm Hp Hw) as Hd.
  split.
  - exists out. rewrite Hd. repeat split; assumption.
  - unfold wsgi_app. rewrite Hm. simpl String.eqb. cbv iota.
    rewrite full_dispatch_built, Hd, Hout.
    unfold get_json, content_type.
    rewrite cors_status_code, cors_body.
    repeat split; try assumption.
    apply cors_keeps_header. exact Hct.
Qed.

(** C2, as the code has it. Two GET requests to [/status] that do not
    ask for the WebSocket protocol, whatever their query strings,
    headers and bodies, get the same response from the view, called
    as the rule calls it or through the dispatcher, and the same
    status and body on the wire. *)
Theorem status_ignores_request name env args a r1 r2 :
  application send_static_file name env args = Some a ->
  method r1 = "GET" -> path r1 = "/status" -> is_websocket r1 = false ->
  method r2 = "GET" -> path r2 = "/status" -> is_websocket r2 = false ->
  call status (config a) [] r1 = call status (config a) [] r2
  /\ dispatch_request a r1 = call status (config a) [] r1
  /\ dispatch_request a r1 = dispatch_request a r2
  /\ status_code (wsgi_app a r1) = status_code (wsgi_app a r2)
  /\ body (wsgi_app a r1) = body (wsgi_app a r2).
Proof.
  intros Ha Hm1 Hp1 Hw1 Hm2 Hp2 Hw2. apply application_built in Ha. subst a.
  pose proof (dispatch_status_get name (get_debug_flag env) r1 Hm1 Hp1 Hw1)
    as H1.
  pose proof (dispatch_status_get name (get_debug_flag env) r2 Hm2 Hp2 Hw2)
    as H2.
  split; [reflexivity|].
  split; [exact H1|].
  split; [congruence|].
  unfold wsgi_app. rewrite Hm1, Hm2. simpl String.eqb. cbv iota.
  rewrite !full_dispatch_built, H1, H2, !cors_status_code, !cors_body.
  split; reflexivity.
Qed.

Lemma dispatch_after_match a req r vargs :
  url_match (url_map a) (path req) (query_string req) (method req)
    (is_websocket req)
  = Ok (r, vargs) ->
  dispatch_request a req =
  if provide_automatic_options r && String.eqb (method req) "OPTIONS"
  then Ok (make_default_options_response a req)
  else match view_functions a !! endpoint r with
       | Some v => call v (config a) vargs req
       | None => Raise (KeyError (endpoint r))
       end.
Proof. intros H. unfold dispatch_request. rewrite H. reflexivity. Qed.

Lemma view_static name debug :
  view_functions (built_app send_static_file name debug) !! "static"
  = Some (static_view send_static_file).
Proof. reflexivity. Qed.

Lemma view_status name debug :
  view_functions (built_app send_static_file name debug) !! "status"
  = Some status.
Proof. reflexivity. Qed.

Lemma exception_no_allow_origin e :
  allow_origin (exception_response e) = None.
Proof. destruct e; reflexivity. Qed.

Lemma url_map_built name debug r :
  In r (url_map (built_app send_static_file name debug)) ->
  r = static_rule \/ r = status_rule.
Proof. simpl. intuition. Qed.

Section Cors.

(** The file-serving view sets no cross-origin header of its own. *)
Hypothesis static_sets_no_origin :
  forall filename req resp,
    send_static_file filename req = Ok resp -> allow_origin resp = None.

Lemma before_hook_no_allow_origin name debug req :
  allow_origin
    match dispatch_request (built_app send_static_file name debug) req with
    | Ok resp => resp
    | Raise e => exception_response e
    end = None.
Proof.
  destruct (url_match (url_map (built_app send_static_file name debug))
              (path req) (query_string req) (method req) (is_websocket req))
    as [[r vargs]|e] eqn:E.
  - rewrite (dispatch_after_match _ _ _ _ E).
    apply url_match_in, url_map_built in E.
    destruct (provide_automatic_options r && String.eqb (method req) "OPTIONS");
      [reflexivity|].
    destruct E as [-> | ->].
    + change (endpoint static_rule) with "static". rewrite view_static.
      unfold static_view, call.
      destruct (send_static_file (default "" (view_arg "filename" vargs)) req)
        as [resp|e] eqn:Es.
      * eapply static_sets_no_origin; exact Es.
      * apply exception_no_allow_origin.
    + change (endpoint status_rule) with "status". rewrite view_status.
      destruct vargs as [|[k v] vargs]; destruct debug; reflexivity.
  - unfold dispatch_request. rewrite E. apply exception_no_allow_origin.
Qed.

(** C3. Whatever the request (any method, any path, served by a view
    or answered with an error page), the response carries
    [Access-Control-Allow-Origin], and its value admits the origin the
    request came from: the wildcard, or that very origin. *)
Theorem every_response_allows_origin name env args a req :
  application send_static_file name env args = Some a ->
  exists v,
    allow_origin (wsgi_app a req) = Some v
    /\ (v = "*" \/ header_get "Origin" (headers req) = Some v).
Proof.
  intros Ha. apply application_built in Ha. subst a.
  unfold allow_origin. rewrite wsgi_headers, full_dispatch_built.
  apply cors_default_allows, before_hook_no_allow_origin.
Qed.

End Cors.

(** ** Methods and paths the map turns away *)




(** C5, as the code has it. When no rule of the map speaks for the
    path of a request, neither as it stands nor with its repeated
    slashes merged, the response is 404, whatever the method. *)
Theorem undefined_path_404 name env args a req :
  application send_static_file name env args = Some a ->
  route_defined (url_map a) (path_part (path req)) = false ->
  route_defined (url_map a) (merge_slashes_in (path_part (path req))) = false ->
  status_code (wsgi_app a req) = 404.
Proof.
  intros Ha H1 H2.
  pose proof (application_built _ _ _ _ Ha) as ->.
  rewrite wsgi_status_code, full_dispatch_built, cors_status_code.
  unfold dispatch_request.
  rewrite (url_match_undefined _ _ (query_string req) (method req)
             (is_websocket req) H1 H2).
  reflexivity.
Qed.

(** C6, as the code has it. The map of the loaded application holds
    two rules: the static-file rule Flask registers on construction
    and the [/status] rule of the module.  The latter serves GET, and
    with it HEAD and OPTIONS; it is the only rule whose endpoint is
    bound to a view of the module. *)
Theorem url_map_is_static_and_status name env args a :
  application send_static_file name env args = Some a ->
  url_map a = [static_rule; status_rule]
  /\ rule status_rule = "/status"
  /\ (forall m, has_method m (methods status_rule) = true
                <-> m = "GET" \/ m = "HEAD" \/ m = "OPTIONS")
  /\ (forall r, In r (url_map a) ->
                (view_functions a !! endpoint r = Some status <-> r = status_rule)).
Proof.
  intros Ha. apply application_built in Ha. subst a.
  split; [reflexivity|]. split; [reflexivity|]. split.
  - intros m. unfold has_method. simpl. rewrite !orb_true_iff, !String.eqb_eq.
    clear. intuition discriminate.
  - intros r Hr. apply url_map_built in Hr. destruct Hr as [-> | ->].
    + change (endpoint static_rule) with "static". rewrite view_static.
      split; intros H; [|discriminate].
      apply (f_equal (option_map qualname)) in H. discriminate.
    + change (endpoint status_rule) with "status". rewrite view_status.
      split; reflexivity.
Qed.

(** C7. Run as the main program, the module ends by asking the
    framework to serve the application on host 0.0.0.0, every
    interface, and port 10000, and asks so once; neither the
    environment nor the command line has a say in it. *)
Theorem main_serves_on_10000 env args :
  fst (app_py send_static_file "__main__" (boot env args))
  = Ok {| ns_app := 0; ns_status := status |}
  /\ effects send_static_file "__main__" env args
     = (module_events "__main__" ++ [EvRun 0 "0.0.0.0" 10000])%list
  /\ filter is_run (effects send_static_file "__main__" env args)
     = [EvRun 0 "0.0.0.0" 10000].
Proof.
  rewrite effects_eq, app_py_runs. repeat split.
Qed.

(** C8. The [status] view raises on no request: called as its rule
    calls it, without arguments, it returns a response with status
    200 for every configuration and every request, and its type gives
    it nothing of the world to read or write.  The rule has no
    converter, so the map never hands it an argument: a request
    routed to the endpoint is never answered 500. *)
Theorem status_never_raises name env args a req r vargs :
  application send_static_file name env args = Some a ->
  url_match (url_map a) (path req) (query_string req) (method req)
    (is_websocket req)
  = Ok (r, vargs) ->
  endpoint r = "status" ->
  (forall cfg req',
      exists out, call status cfg [] req' = Ok out /\ status_code out = 200)
  /\ vargs = []
  /\ (exists out, dispatch_request a req = Ok out /\ status_code out = 200)
  /\ status_code (wsgi_app a req) = 200.
Proof.
  intros Ha Hr He. apply application_built in Ha. subst a.
  assert (Hview : forall cfg req',
             exists out, call status cfg [] req' = Ok out
                         /\ status_code out = 200).
  { intros [[|]] req'; eexists; split; reflexivity. }
  assert (Hargs : vargs = []).
  { pose proof (url_map_built _ _ _ (url_match_in _ _ _ _ _ _ _ Hr))
      as [-> | ->]; [discriminate|].
    destruct (url_match_ok_first_pass _ _ _ _ _ _ _ Hr) as [g Hg].
    apply match_once_found_strict in Hg as (Hhit & _); [|reflexivity].
    apply status_rule_hit in Hhit as [_ Hhit]. exact Hhit. }
  subst vargs.
  assert (Hd : exists out,
             dispatch_request
               (built_app send_static_file name (get_debug_flag env)) req
             = Ok out /\ status_code out = 200).
  { rewrite (dispatch_after_match _ _ _ _ Hr), He, view_status.
    destruct (provide_automatic_options r && String.eqb (method req) "OPTIONS").
    - eexists; split; reflexivity.
    - apply Hview. }
  split; [exact Hview|]. split; [reflexivity|]. split; [exact Hd|].
  destruct Hd as (out & Hout & Hcode).
  rewrite wsgi_status_code, full_dispatch_built, Hout, cors_status_code.
  exact Hcode.
Qed.

(** C9. Loaded under any name but __main__, the module constructs the
    application (which registers the static rule), installs the CORS
    hook and registers the status rule, and that is all: no call to
    run the server is among its effects.  Such a call occurs exactly
    when the name is __main__. *)
Theorem import_does_not_serve name env args :
  name <> "__main__" ->
  fst (app_py send_static_file name (boot env args))
  = Ok {| ns_app := 0; ns_status := status |}
  /\ effects send_static_file name env args = module_events name
  /\ filter is_run (effects send_static_file name env args) = []
  /\ (forall name', filter is_run (effects send_static_file name' env args) <> []
                    <-> name' = "__main__").
Proof.
  intros Hn. rewrite !effects_eq, app_py_runs.
  apply String.eqb_neq in Hn. rewrite Hn, app_nil_r.
  split; [reflexivity|]. split; [reflexivity|]. split; [reflexivity|].
  intros name'. rewrite effects_eq.
  destruct (String.eqb_spec name' "__main__") as [->|Hne]; simpl.
  - split; [reflexivity | discriminate].
  - split; [intros H; now contradiction H | intros H; now contradiction Hne].
Qed.

(** C10. A GET request to [/status/], with the closing slash, is not
    routed to the status view: the rule is strict about slashes, the
    adapter raises [NotFound], and the response is the 404 page, not
    the 200 document. *)
Theorem status_trailing_slash_404 name env args a req :
  application send_static_file name env args = Some a ->
  method req = "GET" ->
  path req = "/status/" ->
  dispatch_request a req = Raise NotFound
  /\ status_code (wsgi_app a req) = 404
  /\ body (wsgi_app a req) = ErrorPage 404
  /\ get_json (wsgi_app a req) <> Some status_document.
Proof.
  intros Ha Hm Hp. apply application_built in Ha. subst a.
  assert (Hd : dispatch_request
                 (built_app send_static_file name (get_debug_flag env)) req
               = Raise NotFound).
  { unfold dispatch_request. rewrite Hm, Hp. reflexivity. }
  split; [exact Hd|].
  unfold get_json, wsgi_app. rewrite Hm. simpl String.eqb. cbv iota.
  rewrite full_dispatch_built, Hd, cors_status_code, cors_body.
  repeat split. discriminate.
Qed.

End Properties.


(** ** Further properties of the served application *)

Section Served.

Variable send_static_file : string -> Request -> Result Response.

Lemma header_count_app name hs more :
  header_count name (hs ++ more)
  = (header_count name hs + header_count name more)%nat.
Proof.
  induction hs as [|[k v] hs IH]; simpl; [reflexivity|].
  destruct (String.eqb (lower k) (lower name)); simpl; rewrite IH; reflexivity.
Qed.

Lemma header_count_absent name hs :
  header_get name hs = None -> header_count name hs = 0%nat.
Proof.
  induction hs as [|[k v] hs IH]; simpl; [reflexivity|].
  destruct (String.eqb (lower k) (lower name)); [discriminate | exact IH].
Qed.

Lemma dispatch_status_head name debug req :
  method req = "HEAD" -> path req = "/status" -> is_websocket req = false ->
  dispatch_request (built_app send_static_file name debug) req
  = jsonify {| DEBUG := debug |} status_document.
Proof.
  intros Hm Hp Hw. unfold dispatch_request. rewrite Hm, Hp, Hw. reflexivity.
Qed.

(** X1. A HEAD request to [/status] that does not ask for the
    WebSocket protocol runs the same view as GET and is answered with
    the status and the headers of the GET response, 200 and the JSON
    content type among them, and an empty body. *)
Theorem head_status_mirrors_get name env args a req :
  application send_static_file name env args = Some a ->
  method req = "HEAD" ->
  path req = "/status" ->
  is_websocket req = false ->
  status_code (wsgi_app a req) = 200
  /\ body (wsgi_app a req) = Data ""
  /\ content_type (wsgi_app a req) = Some "application/json"
  /\ status_code (wsgi_app a req)
     = status_code (wsgi_app a (with_method "GET" req))
  /\ resp_headers (wsgi_app a req)
     = resp_headers (wsgi_app a (with_method "GET" req)).
Proof.
  intros Ha Hm Hp Hw. apply application_built in Ha. subst a.
  destruct (jsonify_status_document (get_debug_flag env))
    as (out & Hout & Hcode & _ & _ & Hct).
  pose proof (dispatch_status_head name (get_debug_flag env) req Hm Hp Hw)
    as Hh.
  pose proof (dispatch_status_get send_static_file name (get_debug_flag env)
                (with_method "GET" req) eq_refl Hp Hw) as Hg.
  rewrite !wsgi_status_code, !wsgi_headers, !full_dispatch_built, Hh, Hg, Hout.
  unfold content_type, wsgi_app. rewrite Hm. simpl String.eqb. cbv iota.
  cbn [status_code resp_headers body].
  rewrite ?full_dispatch_built, ?Hh, ?Hout, !cors_status_code.
  change (cors_after_request default_options (with_method "GET" req) out)
    with (cors_after_request default_options req out).
  repeat split; try assumption.
  apply cors_keeps_header. exact Hct.
Qed.

Lemma allowed_methods_status name debug ws :
  allowed_methods
    (url_map (built_app send_static_file name debug)) "/status" ws
  = set_order all_methods.
Proof. reflexivity. Qed.

Section OptionsAnswer.

(** The order of a set is an order of its members. *)
Hypothesis set_order_permutes : forall l, Permutation (set_order l) l.

(** X2. An OPTIONS request to [/status] that does not ask for the
    WebSocket protocol is answered by Flask itself, without calling
    the view: 200, an empty body, and an Allow header that lists, in
    the order of the process, the three methods of the rule: GET, HEAD
    and OPTIONS. *)
Theorem options_status_lists_methods name env args a req :
  application send_static_file name env args = Some a ->
  method req = "OPTIONS" ->
  path req = "/status" ->
  is_websocket req = false ->
  dispatch_request a req = Ok (make_default_options_response a req)
  /\ status_code (wsgi_app a req) = 200
  /\ body (wsgi_app a req) = Data ""
  /\ exists listed,
       header_get "Allow" (resp_headers (wsgi_app a req))
       = Some (join ", " listed)
       /\ Permutation listed ["GET"; "HEAD"; "OPTIONS"].
Proof.
  intros Ha Hm Hp Hw. apply application_built in Ha. subst a.
  assert (Hd : dispatch_request
                 (built_app send_static_file name (get_debug_flag env)) req
               = Ok (make_default_options_response
                       (built_app send_static_file name (get_debug_flag env))
                       req)).
  { unfold dispatch_request. rewrite Hm, Hp, Hw. reflexivity. }
  split; [exact Hd|].
  rewrite wsgi_status_code, wsgi_headers.
  unfold wsgi_app. rewrite Hm. simpl String.eqb. cbv iota.
  rewrite full_dispatch_built, Hd, cors_status_code, cors_body.
  split; [reflexivity|]. split; [reflexivity|].
  exists (set_order all_methods). split.
  - apply cors_keeps_header. unfold make_default_options_response.
    rewrite Hp, allowed_methods_status. reflexivity.
  - rewrite set_order_permutes. unfold all_methods.
    apply perm_skip, perm_swap.
Qed.

End OptionsAnswer.

Lemma url_match_status_served name debug p q m :
  path_part p = "/status" ->
  has_method m all_methods = true ->
  url_match (url_map (built_app send_static_file name debug))
    p q m false
  = Ok (status_rule, []).
Proof.
  intros Hp H. unfold url_match, match_once. rewrite Hp.
  cbn -[has_method all_methods].
  change (methods status_rule) with all_methods. rewrite H.
  reflexivity.
Qed.

Lemma has_method_all m :
  has_method m all_methods = true
  <-> m = "GET" \/ m = "HEAD" \/ m = "OPTIONS".
Proof.
  unfold has_method, all_methods. simpl.
  rewrite !orb_true_iff, !String.eqb_eq. clear. intuition discriminate.
Qed.

(** What it takes for the map to hand a request to the [/status]
    rule. *)
Lemma routed_to_status name debug p q m ws vargs :
  url_match (url_map (built_app send_static_file name debug))
    p q m ws
  = Ok (status_rule, vargs) ->
  vargs = [] /\ path_part p = "/status"
  /\ has_method m all_methods = true /\ ws = false.
Proof.
  intros H. apply url_match_ok_first_pass in H as [g H].
  apply match_once_found_strict in H as (Hhit & Hm & Hw); [|reflexivity].
  apply status_rule_hit in Hhit as [Hp Ha].
  repeat split; try assumption. symmetry. exact Hw.
Qed.

(** X3. The map routes a request to the [/status] rule exactly when
    its path, leading slashes folded into one, is [/status], its
    method is GET, HEAD or OPTIONS, and it does not ask for the
    WebSocket protocol; the query string has no part in it, and the
    rule passes no argument to the view. *)
Theorem routed_to_status_iff name env args a req :
  application send_static_file name env args = Some a ->
  (forall vargs,
      url_match (url_map a) (path req) (query_string req) (method req)
        (is_websocket req)
      = Ok (status_rule, vargs) -> vargs = [])
  /\ (url_match (url_map a) (path req) (query_string req) (method req)
        (is_websocket req)
      = Ok (status_rule, [])
      <-> path_part (path req) = "/status"
          /\ (method req = "GET" \/ method req = "HEAD"
              \/ method req = "OPTIONS")
          /\ is_websocket req = false).
Proof.
  intros Ha. apply application_built in Ha. subst a. split.
  - intros vargs H. apply routed_to_status in H. apply H.
  - split.
    + intros H. apply routed_to_status in H as (_ & Hp & Hm & Hw).
      repeat split; try assumption. apply has_method_all. exact Hm.
    + intros (Hp & Hm & Hw). rewrite Hw.
      apply url_match_status_served; [exact Hp | apply has_method_all, Hm].
Qed.




(** X6. Outside the static files, the application answers with one of
    five statuses: 200, 308, 400, 404 or 405.  A response with any
    other status comes from the file-serving view, reached by a
    request other than OPTIONS that the map routed to the static
    rule. *)
Theorem statuses_outside_static name env args a req :
  application send_static_file name env args = Some a ->
  In (status_code (wsgi_app a req)) framework_statuses
  \/ (exists vargs,
         url_match (url_map a) (path req) (query_string req) (method req)
           (is_websocket req)
         = Ok (static_rule, vargs)
         /\ method req <> "OPTIONS").
Proof.
  intros Ha. apply application_built in Ha. subst a.
  rewrite wsgi_status_code, full_dispatch_built, cors_status_code.
  destruct (url_match
              (url_map (built_app send_static_file name (get_debug_flag env)))
              (path req) (query_string req) (method req) (is_websocket req))
    as [[r vargs]|e] eqn:E.
  - rewrite (dispatch_after_match _ _ _ _ E).
    pose proof (url_map_built _ _ _ _ (url_match_in _ _ _ _ _ _ _ E))
      as [-> | ->].
    + change (provide_automatic_options static_rule) with true.
      destruct (String.eqb_spec (method req) "OPTIONS") as [Ho|Ho]; simpl.
      * left. left. reflexivity.
      * right. exists vargs. split; [reflexivity | exact Ho].
    + left. apply routed_to_status in E as (-> & _).
      destruct (provide_automatic_options status_rule
                && String.eqb (method req) "OPTIONS"); [left; reflexivity|].
      change (endpoint status_rule) with "status". rewrite view_status.
      destruct (jsonify_status_document (get_debug_flag env))
        as (out & Hout & Hcode & _).
      change (call status
                (config (built_app send_static_file name (get_debug_flag env)))
                [] req)
        with (jsonify {| DEBUG := get_debug_flag env |} status_document).
      rewrite Hout, Hcode. left. reflexivity.
  - left. unfold dispatch_request. rewrite E.
    apply url_match_raises in E as [-> | [-> | [[valid ->] | [url ->]]]];
      simpl; auto 6.
Qed.

(** X7. No path below [/status/] is served, the bare [/status/]
    included: whatever the rest of the path and whatever the method,
    routing raises [NotFound] and the response is 404. *)
Theorem below_status_404 name env args a req rest :
  application send_static_file name env args = Some a ->
  path req = "/status/" ++ rest ->
  dispatch_request a req = Raise NotFound
  /\ status_code (wsgi_app a req) = 404.
Proof.
  intros Ha Hp. apply application_built in Ha. subst a.
  assert (Hd : dispatch_request
                 (built_app send_static_file name (get_debug_flag env)) req
               = Raise NotFound).
  { unfold dispatch_request, url_match. rewrite Hp.
    change (path_part ("/status/" ++ rest)) with ("/status/" ++ rest).
    change (url_map (built_app send_static_file name (get_debug_flag env)))
      with [static_rule; status_rule].
    rewrite match_once_below_status.
    destruct (merge_below_status rest) as (rest' & ->).
    rewrite match_once_below_status. reflexivity. }
  split; [exact Hd|].
  rewrite wsgi_status_code, full_dispatch_built, Hd, cors_status_code.
  reflexivity.
Qed.

Section ExactCors.

(** The file-serving view sets neither of the two headers the CORS
    hook writes. *)
Hypothesis static_sets_neither :
  forall filename req resp,
    send_static_file filename req = Ok resp ->
    allow_origin resp = None /\ header_get "Vary" (resp_headers resp) = None.

Lemma exception_no_vary e :
  header_get "Vary" (resp_headers (exception_response e)) = None.
Proof. destruct e; reflexivity. Qed.

Lemma before_hook_no_vary name debug req :
  header_get "Vary"
    (resp_headers
       match dispatch_request (built_app send_static_file name debug) req with
       | Ok resp => resp
       | Raise e => exception_response e
       end) = None.
Proof.
  destruct (url_match
              (url_map (built_app send_static_file name debug))
              (path req) (query_string req) (method req) (is_websocket req))
    as [[r vargs]|e] eqn:E.
  - rewrite (dispatch_after_match _ _ _ _ E).
    apply url_match_in, url_map_built in E.
    destruct (provide_automatic_options r && String.eqb (method req) "OPTIONS");
      [reflexivity|].
    destruct E as [-> | ->].
    + change (endpoint static_rule) with "static". rewrite view_static.
      unfold static_view, call.
      destruct (send_static_file (default "" (view_arg "filename" vargs)) req)
        as [resp|e] eqn:Es.
      * eapply static_sets_neither; exact Es.
      * apply exception_no_vary.
    + change (endpoint status_rule) with "status". rewrite view_status.
      destruct vargs as [|[k v] vargs]; destruct debug; reflexivity.
  - unfold dispatch_request. rewrite E. apply exception_no_vary.
Qed.

(** X5. Every response carries exactly one
    [Access-Control-Allow-Origin] header.  To a request that names an
    origin it gives that origin back and adds [Vary: Origin]; to a
    request without one, or with the origin [*], it gives the
    wildcard and no [Vary]. *)
Theorem cors_headers_exact name env args a req :
  application send_static_file name env args = Some a ->
  header_count ACL_ORIGIN (resp_headers (wsgi_app a req)) = 1%nat
  /\ match header_get "Origin" (headers req) with
     | Some o =>
         if String.eqb o "" || String.eqb o "*"
         then allow_origin (wsgi_app a req) = Some "*"
              /\ header_get "Vary" (resp_headers (wsgi_app a req)) = None
         else allow_origin (wsgi_app a req) = Some o
              /\ header_get "Vary" (resp_headers (wsgi_app a req))
                 = Some "Origin"
     | None =>
         allow_origin (wsgi_app a req) = Some "*"
         /\ header_get "Vary" (resp_headers (wsgi_app a req)) = None
     end.
Proof.
  intros Ha. apply application_built in Ha. subst a.
  unfold allow_origin. rewrite wsgi_headers, full_dispatch_built.
  pose proof (before_hook_no_vary name (get_debug_flag env) req) as Hv.
  assert (Ho : allow_origin
                 match dispatch_request
                         (built_app send_static_file name (get_debug_flag env))
                         req with
                 | Ok resp => resp
                 | Raise e => exception_response e
                 end = None).
  { apply before_hook_no_allow_origin.
    intros f r resp H. apply (static_sets_neither f r resp H). }
  unfold allow_origin in Ho.
  set (rv := match dispatch_request _ req with
             | Ok resp => resp
             | Raise e => exception_response e
             end) in *.
  unfold cors_after_request. rewrite Ho. simpl resources. cbv iota.
  unfold set_cors_headers. cbn [resp_headers].
  rewrite header_add_all, header_count_app, !header_get_app, Ho, Hv,
    (header_count_absent _ _ Ho).
  unfold get_cors_headers, get_cors_origins.
  cbn -[String.eqb header_get header_count].
  destruct (header_get "Origin" (headers req)) as [o|]; [|repeat split].
  destruct (String.eqb o "") eqn:Eo; [repeat split|].
  destruct (String.eqb o "*") eqn:Es; cbn -[String.eqb]; repeat split.
  apply String.eqb_eq in Es. subst o. reflexivity.
Qed.

End ExactCors.

End Served.

End Process.
(** ** The properties at sample inputs *)

Lemma one_file_folder_sets_no_origin filename req resp :
  one_file_folder filename req = Ok resp -> allow_origin resp = None.
Proof.
  unfold one_file_folder.
  destruct (String.eqb filename "robots.txt"); intros H; [|discriminate].
  injection H as <-. reflexivity.
Qed.

Lemma status_get_ok_witness :
  application one_file_folder "__main__" ∅ [] = Some sample_app
  /\ method get_status = "GET"
  /\ path get_status = "/status"
  /\ is_websocket get_status = false
  /\ (exists out,
        dispatch_request backwards sample_app get_status = Ok out
        /\ call status (config sample_app) [] get_status = Ok out
        /\ status_code out = 200
        /\ get_json out = Some status_document
        /\ content_type out = Some "application/json")
  /\ status_code (wsgi_app backwards sample_app get_status) = 200
  /\ body (wsgi_app backwards sample_app get_status)
     = Data (status_text (DEBUG (config sample_app)))
  /\ get_json (wsgi_app backwards sample_app get_status) = Some status_document
  /\ content_type (wsgi_app backwards sample_app get_status) = Some "application/json".
Proof.
  do 4 (split; [reflexivity|]).
  apply (status_get_ok backwards one_file_folder "__main__" ∅ [] sample_app
           get_status); reflexivity.
Defined.

Lemma status_ignores_request_witness :
  application one_file_folder "__main__" ∅ [] = Some sample_app
  /\ method get_status = "GET" /\ path get_status = "/status"
  /\ is_websocket get_status = false
  /\ method get_status_from_shop = "GET" /\ path get_status_from_shop = "/status"
  /\ is_websocket get_status_from_shop = false
  /\ call status (config sample_app) [] get_status
     = call status (config sample_app) [] get_status_from_shop
  /\ dispatch_request backwards sample_app get_status
     = call status (config sample_app) [] get_status
  /\ dispatch_request backwards sample_app get_status
     = dispatch_request backwards sample_app get_status_from_shop
  /\ status_code (wsgi_app backwards sample_app get_status)
     = status_code (wsgi_app backwards sample_app get_status_from_shop)
  /\ body (wsgi_app backwards sample_app get_status)
     = body (wsgi_app backwards sample_app get_status_from_shop).
Proof.
  do 7 (split; [reflexivity|]).
  apply (status_ignores_request backwards one_file_folder "__main__" ∅ []
           sample_app get_status get_status_from_shop); reflexivity.
Defined.

(** The view's result is the same for both requests; the header the
    CORS hook adds afterwards follows the Origin of each. *)
Lemma allow_origin_follows_request :
  allow_origin (wsgi_app backwards sample_app get_status) = Some "*"
  /\ allow_origin (wsgi_app backwards sample_app get_status_from_shop)
     = Some "https://shop.example".
Proof. split; reflexivity. Qed.

Lemma every_response_allows_origin_witness :
  (forall filename req resp,
      one_file_folder filename req = Ok resp -> allow_origin resp = None)
  /\ application one_file_folder "__main__" ∅ [] = Some sample_app
  /\ exists v,
       allow_origin (wsgi_app backwards sample_app delete_nowhere_from_shop) = Some v
       /\ (v = "*" \/ header_get "Origin" (headers delete_nowhere_from_shop) = Some v).
Proof.
  split; [exact one_file_folder_sets_no_origin|]. split; [reflexivity|].
  apply (every_response_allows_origin backwards one_file_folder
           one_file_folder_sets_no_origin "__main__" ∅ [] sample_app
           delete_nowhere_from_shop).
  reflexivity.
Defined.


Lemma undefined_path_404_witness :
  application one_file_folder "__main__" ∅ [] = Some sample_app
  /\ route_defined (url_map sample_app) (path_part (path delete_nowhere_from_shop))
     = false
  /\ route_defined (url_map sample_app)
       (merge_slashes_in (path_part (path delete_nowhere_from_shop))) = false
  /\ status_code (wsgi_app backwards sample_app delete_nowhere_from_shop) = 404.
Proof.
  do 3 (split; [reflexivity|]).
  apply (undefined_path_404 backwards one_file_folder "__main__" ∅ [] sample_app
           delete_nowhere_from_shop); reflexivity.
Defined.

Lemma url_map_is_static_and_status_witness :
  application one_file_folder "__main__" ∅ [] = Some sample_app
  /\ url_map sample_app = [static_rule; status_rule]
  /\ rule status_rule = "/status"
  /\ (forall m, has_method m (methods status_rule) = true
                <-> m = "GET" \/ m = "HEAD" \/ m = "OPTIONS")
  /\ (forall r, In r (url_map sample_app) ->
                (view_functions sample_app !! endpoint r = Some status
                 <-> r = status_rule)).
Proof.
  split; [reflexivity|].
  apply (url_map_is_static_and_status one_file_folder "__main__" ∅ []
           sample_app).
  reflexivity.
Defined.

Lemma status_never_raises_witness :
  application one_file_folder "__main__" ∅ [] = Some sample_app
  /\ url_match backwards (url_map sample_app) (path get_status_from_shop)
       (query_string get_status_from_shop) (method get_status_from_shop)
       (is_websocket get_status_from_shop)
     = Ok (status_rule, [])
  /\ endpoint status_rule = "status"
  /\ (forall cfg req',
         exists out, call status cfg [] req' = Ok out /\ status_code out = 200)
  /\ ([] : list (string * string)) = []
  /\ (exists out,
         dispatch_request backwards sample_app get_status_from_shop = Ok out
         /\ status_code out = 200)
  /\ status_code (wsgi_app backwards sample_app get_status_from_shop) = 200.
Proof.
  do 3 (split; [reflexivity|]).
  apply (status_never_raises backwards one_file_folder "__main__" ∅ []
           sample_app get_status_from_shop status_rule []); reflexivity.
Defined.

Lemma import_does_not_serve_witness :
  "backend.app" <> "__main__"
  /\ fst (app_py one_file_folder "backend.app" (boot ∅ []))
     = Ok {| ns_app := 0; ns_status := status |}
  /\ effects one_file_folder "backend.app" ∅ [] = module_events "backend.app"
  /\ filter is_run (effects one_file_folder "backend.app" ∅ []) = []
  /\ (forall name', filter is_run (effects one_file_folder name' ∅ []) <> []
                    <-> name' = "__main__").
Proof.
  split; [discriminate|].
  apply (import_does_not_serve one_file_folder "backend.app" ∅ []).
  discriminate.
Defined.

Lemma status_trailing_slash_404_witness :
  application one_file_folder "__main__" ∅ [] = Some sample_app
  /\ method get_status_slash = "GET"
  /\ path get_status_slash = "/status/"
  /\ dispatch_request backwards sample_app get_status_slash = Raise NotFound
  /\ status_code (wsgi_app backwards sample_app get_status_slash) = 404
  /\ body (wsgi_app backwards sample_app get_status_slash) = ErrorPage 404
  /\ get_json (wsgi_app backwards sample_app get_status_slash) <> Some status_document.
Proof.
  do 3 (split; [reflexivity|]).
  apply (status_trailing_slash_404 backwards one_file_folder "__main__" ∅ [] sample_app
           get_status_slash); reflexivity.
Defined.

(** ** Where the written claims and the code part ways *)

(** C1 as written fails: a GET request to [/status] that asks to
    switch to the WebSocket protocol never reaches the view; the map
    finds only an HTTP rule for it and the answer is 400, not 200. *)
Lemma upgrade_get_status_is_400 :
  application one_file_folder "__main__" ∅ [] = Some sample_app
  /\ method get_status_upgrade = "GET"
  /\ path get_status_upgrade = "/status"
  /\ dispatch_request backwards sample_app get_status_upgrade
     = Raise WebsocketMismatch
  /\ status_code (wsgi_app backwards sample_app get_status_upgrade) = 400
  /\ ~ status_code (wsgi_app backwards sample_app get_status_upgrade) = 200
  /\ get_json (wsgi_app backwards sample_app get_status_upgrade) = None.
Proof.
  do 5 (split; [reflexivity|]). split; [discriminate | reflexivity].
Qed.

(** C2 as written fails: two GET requests to [/status] that differ in
    their headers alone, one of them asking for the WebSocket
    protocol, are answered apart, 200 with the document and 400 with
    an error page. *)
Lemma upgrade_headers_change_the_answer :
  application one_file_folder "__main__" ∅ [] = Some sample_app
  /\ method get_status = "GET" /\ path get_status = "/status"
  /\ method get_status_upgrade = "GET" /\ path get_status_upgrade = "/status"
  /\ dispatch_request backwards sample_app get_status
     <> dispatch_request backwards sample_app get_status_upgrade
  /\ status_code (wsgi_app backwards sample_app get_status)
     <> status_code (wsgi_app backwards sample_app get_status_upgrade)
  /\ body (wsgi_app backwards sample_app get_status)
     <> body (wsgi_app backwards sample_app get_status_upgrade).
Proof.
  do 5 (split; [reflexivity|]). repeat split; discriminate.
Qed.


(** C5 as written fails: no rule of the map speaks for [/static//x],
    yet a GET request to it is answered 308, a redirect to
    [/static/x], not 404; so is one to [/static///x].  Nor does it
    hold with [/status] counted as the one defined route: a POST to a
    path under [/static/] is answered 405. *)
Lemma double_slash_is_redirected :
  application one_file_folder "__main__" ∅ [] = Some sample_app
  /\ route_defined (url_map sample_app) (path get_static_double_slash) = false
  /\ status_code (wsgi_app backwards sample_app get_static_double_slash) = 308
  /\ ~ status_code (wsgi_app backwards sample_app get_static_double_slash) = 404
  /\ status_code (wsgi_app backwards sample_app
                    (request_for "GET" "/static///x" [])) = 308
  /\ path post_static_file <> "/status"
  /\ status_code (wsgi_app backwards sample_app post_static_file) = 405.
Proof.
  split; [reflexivity|]. split; [reflexivity|]. split; [reflexivity|].
  split; [discriminate|]. split; [reflexivity|].
  split; [discriminate | reflexivity].
Qed.

(** C6 as written fails: the map holds two rules, not one, and the
    [/status] rule serves HEAD and OPTIONS besides GET. *)
Lemma url_map_has_two_rules :
  application one_file_folder "__main__" ∅ [] = Some sample_app
  /\ length (url_map sample_app) = 2%nat
  /\ ~ (exists r, url_map sample_app = [r])
  /\ map rule (url_map sample_app) = ["/static/<path:filename>"; "/status"].
Proof.
  split; [reflexivity|]. split; [reflexivity|]. split; [|reflexivity].
  intros [r H]. discriminate.
Qed.

(** ** The further properties at sample inputs *)

Lemma one_file_folder_sets_neither filename req resp :
  one_file_folder filename req = Ok resp ->
  allow_origin resp = None /\ header_get "Vary" (resp_headers resp) = None.
Proof.
  unfold one_file_folder.
  destruct (String.eqb filename "robots.txt"); intros H; [|discriminate].
  injection H as <-. split; reflexivity.
Qed.

Lemma head_status_mirrors_get_witness :
  application one_file_folder "__main__" ∅ [] = Some sample_app
  /\ method head_status = "HEAD"
  /\ path head_status = "/status"
  /\ is_websocket head_status = false
  /\ status_code (wsgi_app backwards sample_app head_status) = 200
  /\ body (wsgi_app backwards sample_app head_status) = Data ""
  /\ content_type (wsgi_app backwards sample_app head_status)
     = Some "application/json"
  /\ status_code (wsgi_app backwards sample_app head_status)
     = status_code (wsgi_app backwards sample_app
                      (with_method "GET" head_status))
  /\ resp_headers (wsgi_app backwards sample_app head_status)
     = resp_headers (wsgi_app backwards sample_app
                       (with_method "GET" head_status)).
Proof.
  do 4 (split; [reflexivity|]).
  apply (head_status_mirrors_get backwards one_file_folder "__main__" ∅ []
           sample_app head_status); reflexivity.
Defined.

Lemma backwards_permutes (l : list string) : Permutation (backwards l) l.
Proof. symmetry. apply Permutation_rev. Qed.

Lemma options_status_lists_methods_witness :
  (forall l, Permutation (backwards l) l)
  /\ application one_file_folder "__main__" ∅ [] = Some sample_app
  /\ method options_status = "OPTIONS"
  /\ path options_status = "/status"
  /\ is_websocket options_status = false
  /\ dispatch_request backwards sample_app options_status
     = Ok (make_default_options_response backwards sample_app options_status)
  /\ status_code (wsgi_app backwards sample_app options_status) = 200
  /\ body (wsgi_app backwards sample_app options_status) = Data ""
  /\ exists listed,
       header_get "Allow"
         (resp_headers (wsgi_app backwards sample_app options_status))
       = Some (join ", " listed)
       /\ Permutation listed ["GET"; "HEAD"; "OPTIONS"].
Proof.
  split; [exact backwards_permutes|].
  do 4 (split; [reflexivity|]).
  apply (options_status_lists_methods backwards one_file_folder
           backwards_permutes "__main__" ∅ [] sample_app options_status);
    reflexivity.
Defined.

Lemma routed_to_status_iff_witness :
  application one_file_folder "__main__" ∅ [] = Some sample_app
  /\ (forall vargs,
         url_match backwards (url_map sample_app) (path get_status_from_shop)
           (query_string get_status_from_shop) (method get_status_from_shop)
           (is_websocket get_status_from_shop)
         = Ok (status_rule, vargs) -> vargs = [])
  /\ (url_match backwards (url_map sample_app) (path get_status_from_shop)
         (query_string get_status_from_shop) (method get_status_from_shop)
         (is_websocket get_status_from_shop)
       = Ok (status_rule, [])
       <-> path_part (path get_status_from_shop) = "/status"
           /\ (method get_status_from_shop = "GET"
               \/ method get_status_from_shop = "HEAD"
               \/ method get_status_from_shop = "OPTIONS")
           /\ is_websocket get_status_from_shop = false).
Proof.
  split; [reflexivity|].
  apply (routed_to_status_iff backwards one_file_folder "__main__" ∅ []
           sample_app get_status_from_shop).
  reflexivity.
Defined.


Lemma cors_headers_exact_witness :
  (forall filename req resp,
      one_file_folder filename req = Ok resp ->
      allow_origin resp = None /\ header_get "Vary" (resp_headers resp) = None)
  /\ application one_file_folder "__main__" ∅ [] = Some sample_app
  /\ header_count ACL_ORIGIN
       (resp_headers (wsgi_app backwards sample_app delete_nowhere_from_shop)) = 1%nat
  /\ match header_get "Origin" (headers delete_nowhere_from_shop) with
     | Some o =>
         if String.eqb o "" || String.eqb o "*"
         then allow_origin (wsgi_app backwards sample_app delete_nowhere_from_shop)
              = Some "*"
              /\ header_get "Vary"
                   (resp_headers (wsgi_app backwards sample_app delete_nowhere_from_shop))
                 = None
         else allow_origin (wsgi_app backwards sample_app delete_nowhere_from_shop)
              = Some o
              /\ header_get "Vary"
                   (resp_headers (wsgi_app backwards sample_app delete_nowhere_from_shop))
                 = Some "Origin"
     | None =>
         allow_origin (wsgi_app backwards sample_app delete_nowhere_from_shop) = Some "*"
         /\ header_get "Vary"
              (resp_headers (wsgi_app backwards sample_app delete_nowhere_from_shop))
            = None
     end.
Proof.
  split; [exact one_file_folder_sets_neither|]. split; [reflexivity|].
  apply (cors_headers_exact backwards one_file_folder
           one_file_folder_sets_neither
           "__main__" ∅ [] sample_app delete_nowhere_from_shop).
  reflexivity.
Defined.

Lemma statuses_outside_static_witness :
  application one_file_folder "__main__" ∅ [] = Some sample_app
  /\ (In (status_code (wsgi_app backwards sample_app delete_nowhere_from_shop))
         framework_statuses
      \/ (exists vargs,
             url_match backwards (url_map sample_app)
               (path delete_nowhere_from_shop)
               (query_string delete_nowhere_from_shop)
               (method delete_nowhere_from_shop)
               (is_websocket delete_nowhere_from_shop)
             = Ok (static_rule, vargs)
             /\ method delete_nowhere_from_shop <> "OPTIONS")).
Proof.
  split; [reflexivity|].
  apply (statuses_outside_static backwards one_file_folder "__main__" ∅ [] sample_app
           delete_nowhere_from_shop).
  reflexivity.
Defined.

Lemma below_status_404_witness :
  application one_file_folder "__main__" ∅ [] = Some sample_app
  /\ path put_status_health = "/status/" ++ "health"
  /\ dispatch_request backwards sample_app put_status_health = Raise NotFound
  /\ status_code (wsgi_app backwards sample_app put_status_health) = 404.
Proof.
  do 2 (split; [reflexivity|]).
  apply (below_status_404 backwards one_file_folder "__main__" ∅ [] sample_app
           put_status_health "health"); reflexivity.
Defined.
